(** * Car_class: cleanliness scoring and taxi-fitness rule engine

    A shallow embedding of the decision logic of the repository
    [BDaaac/Car_class]:

    - [src/car_state/expert_analyzer.py]: [analyze_dirt_level],
      [determine_repairability], [generate_expert_assessment],
      [predict_damage], [analyze_image_expert];
    - [src/car_state/analyze_car_image.py]: [analyze_dirt_level],
      [get_human_comment], [predict_damage], [analyze_image].

    Numbers.  The source computes in binary floating point: Python floats
    of 53 bits and, for the probabilities and the confidence, the float32
    numbers of torch and numpy, of 24 bits.  Every finite float is a
    rational number and the comparison of two floats is the comparison of
    these rationals, so metrics, confidences, probabilities and scores are
    values of [Q]; what is proved for every rational holds for the floats
    among them.  A decimal literal of the source is the Python float
    nearest to the decimal it spells ([round_float]): [75.0], [0.5] or
    [6.0] are that decimal, while [0.9], [0.85], [0.8], [0.7], [0.6],
    [0.15] and [0.08] are the constants [float_0_9] to [float_0_08], and
    [literals_on_floats] says where a comparison with the float and the
    one with the decimal differ.  The dirt score is a sum of the values
    [0], [0.5], [1], [1.5] and [2], which binary floating point adds
    without rounding.  The product [prob * 30] of a probability bar is
    the float32 product that numpy computes, since its integer part is
    taken.  The products [probabilities[i] * 100] and the difference
    [100 - major_damage_prob] of the functions that build the report are
    exact in the embedding: the source rounds them to the precision of
    the numbers it is called with, which can move the last digit printed.

    Images.  The statements of [analyze_dirt_level] that call PIL and numpy
    (lines 48-79 of [expert_analyzer.py], 58-91 of [analyze_car_image.py])
    produce six numbers; the embedding starts from these six numbers.

    Network.  [predict_damage] runs the network and a softmax; the
    embedding starts from the row of probabilities that the softmax
    returns, a row of float32 numbers whose largest is the confidence.
    Reading the files, loading the model and the command line are not
    embedded. *)

From Stdlib Require Import QArith Qabs Qpower Lqa DecimalString.
From stdpp Require Import gmap strings list.

#[local] Open Scope Q_scope.

(** ** Python primitives used by the source *)

Module Py.

(** Comparisons of floats are decidable; [decide] computes on them. *)
#[global] Instance Qlt_decision (x y : Q) : Decision (x < y).
Proof. unfold Qlt. apply _. Defined.

#[global] Instance Qle_decision (x y : Q) : Decision (x <= y).
Proof. unfold Qle. apply _. Defined.

#[global] Instance Qeq_decision (x y : Q) : Decision (x == y).
Proof. unfold Qeq. apply _. Defined.

(** Exceptions: the two a subscript can raise in the modelled code, and the
    one the specification names for a prediction that breaks its contract. *)
Inductive exn : Set :=
| IndexError
| KeyError
| InvalidPredictionError.

(** What a call does: it returns a value or it raises. *)
Inductive outcome (A : Type) : Type :=
| Returned (a : A)
| Raised (e : exn).

Arguments Returned {A} a.
Arguments Raised {A} e.

(** Sequencing of calls: stdpp's [x ← c; k] runs [c] and, when it returns,
    continues with [k]; an exception raised by [c] propagates. *)
#[global] Instance outcome_ret : MRet outcome := @Returned.

#[global] Instance outcome_bind : MBind outcome :=
  fun A B (k : A -> outcome B) (c : outcome A) =>
    match c with
    | Returned a => k a
    | Raised e => Raised e
    end.

(** [seq[i]] for a literal index [i >= 0]. *)
Definition subscript {A : Type} (seq : list A) (i : nat) : outcome A :=
  match seq !! i with
  | Some x => Returned x
  | None => Raised IndexError
  end.

(** [d[key]] on a dict with string keys. *)
Definition getitem (d : gmap string Q) (key : string) : outcome Q :=
  match d !! key with
  | Some x => Returned x
  | None => Raised KeyError
  end.

(** [s * n] on a string. *)
Fixpoint str_mul (s : string) (n : nat) : string :=
  match n with
  | O => ""
  | S n' => s +:+ str_mul s n'
  end.

(** [needle in haystack] on strings. *)
Fixpoint str_in (needle haystack : string) : bool :=
  if String.prefix needle haystack then true
  else match haystack with
       | EmptyString => false
       | String _ rest => str_in needle rest
       end.

(** Rounding of a non-negative rational to the nearest integer, ties to the
    even one: the rounding of [format(x, '.1f')], which is exact on the
    value of the float. *)
Definition round_half_even (q : Q) : Z :=
  let n := Qnum q in
  let d := Z.pos (Qden q) in
  let fl := (n / d)%Z in
  match (2 * (n mod d) ?= d)%Z with
  | Lt => fl
  | Gt => (fl + 1)%Z
  | Eq => if Z.even fl then fl else (fl + 1)%Z
  end.

(** *** Binary floating point

    A finite float is a rational [m * 2^e] with an integer mantissa [m] of
    at most [prec] bits: 53 bits for a Python float, 24 bits for a float32
    of numpy and torch. *)
Definition is_float (prec : Z) (x : Q) : Prop :=
  exists m e : Z, (Z.abs m < 2 ^ prec)%Z /\ x == inject_Z m * 2 ^ e.

(** The exponent of a positive rational: [2^e <= x < 2^(e+1)]. *)
Definition ilog2 (x : Q) : Z :=
  let e := (Z.log2 (Qnum x) - Z.log2 (Z.pos (Qden x)))%Z in
  if decide (x < 2 ^ e) then (e - 1)%Z else e.

(** The float nearest to a rational, ties to the even mantissa: the
    rounding of IEEE 754 for a format with [prec] bits of mantissa whose
    smallest positive number is [2^emin].  The numbers of this program are
    far below the largest float, so that overflow is left out. *)
Definition round_float (prec emin : Z) (x : Q) : Q :=
  if decide (x == 0) then 0
  else
    let quantum := 2 ^ Z.max (ilog2 (Qabs x) - (prec - 1)) emin in
    let mantissa := round_half_even (Qabs x / quantum) in
    let magnitude := inject_Z mantissa * quantum in
    if decide (x < 0) then - magnitude else magnitude.

Definition binary64 (x : Q) : Q := round_float 53 (-1074) x.
Definition binary32 (x : Q) : Q := round_float 24 (-149) x.

(** A decimal literal of the source is the Python float nearest to the
    decimal it spells.  These are the literals of the source that are not
    floats themselves; [75.0], [0.5] or [1.5] are. *)
Definition float_0_9 : Q := Eval vm_compute in Qred (binary64 0.9).
Definition float_0_85 : Q := Eval vm_compute in Qred (binary64 0.85).
Definition float_0_8 : Q := Eval vm_compute in Qred (binary64 0.8).
Definition float_0_7 : Q := Eval vm_compute in Qred (binary64 0.7).
Definition float_0_6 : Q := Eval vm_compute in Qred (binary64 0.6).
Definition float_0_15 : Q := Eval vm_compute in Qred (binary64 0.15).
Definition float_0_08 : Q := Eval vm_compute in Qred (binary64 0.08).

(** [x * n] for a float32 scalar [x] of numpy and a Python integer [n]:
    the product is a float32. *)
Definition float32_mul (x n : Q) : Q := binary32 (x * n).

Definition digits (n : Z) : string :=
  NilZero.string_of_uint (N.to_uint (Z.to_N n)).

(** [f"{x:.1f}"]: sign, integer part, point, one digit. *)
Definition format_1f (x : Q) : string :=
  let tenths := round_half_even (Qabs x * 10) in
  (if decide (x < 0) then "-" else "")
    +:+ digits (tenths / 10) +:+ "." +:+ digits (tenths mod 10).

(** [f"{x}"] for a float [x]: used by the source on the constants [75.0],
    [50.0] and [25.0] only, which Python prints with one decimal. *)
Definition str_float (x : Q) : string := format_1f x.

(** The newline character: [\n] in the string literals of
    [analyze_car_image.py]. *)
Definition nl : string := String (Ascii.ascii_of_nat 10) "".

(** [int(x)] on a float: the integer part, rounding towards zero. *)
Definition int_of (x : Q) : Z := Z.quot (Qnum x) (Z.pos (Qden x)).

(** [s * n] for an integer [n]: the empty string when [n <= 0]. *)
Definition str_mul_int (s : string) (n : Z) : string := str_mul s (Z.to_nat n).

(** [len(s)]: the number of code points of a UTF-8 string, that is of its
    bytes that are not continuation bytes [10xxxxxx]. *)
Definition is_continuation (c : Ascii.ascii) : bool :=
  match c with
  | Ascii.Ascii _ _ _ _ _ _ b6 b7 => b7 && negb b6
  end.

Fixpoint py_len (s : string) : nat :=
  match s with
  | EmptyString => 0
  | String c rest => (if is_continuation c then 0 else 1) + py_len rest
  end.

(** [f"{s:w}"] for a string [s]: spaces are added on the right up to [w]
    characters. *)
Definition ljust (s : string) (w : nat) : string :=
  s +:+ str_mul " " (w - py_len s).

(** [f"{x:.1%}"]: the value times 100 with one decimal and a percent
    sign. *)
Definition format_pct1 (x : Q) : string := format_1f (x * 100) +:+ "%".

(** [torch.max(t, 1)] on one row: the largest value and the index of its
    first occurrence; an empty row is an error. *)
Fixpoint first_max (best : Q) (best_index index : nat) (row : list Q) : Q * nat :=
  match row with
  | [] => (best, best_index)
  | x :: rest =>
      if decide (x > best) then first_max x index (S index) rest
      else first_max best best_index (S index) rest
  end.

Definition torch_max (row : list Q) : outcome (Q * nat) :=
  match row with
  | [] => Raised IndexError
  | x :: rest => Returned (first_max x 0 1 rest)
  end.

End Py.

Import Py.

(** ** The six image statistics

    The local variables of [analyze_dirt_level] that the scoring reads. *)

Record ImageMetrics : Set := mkImageMetrics {
  color_diversity : Q;
  contrast : Q;
  saturation : Q;
  brown_ratio : Q;
  edge_intensity : Q;
  brightness : Q
}.

(** The five cleanliness labels of the source, under the names the
    specification gives them. *)
Definition very_dirty : string := "очень грязная".
Definition dirty : string := "грязная".
Definition slightly_dirty : string := "слегка грязная".
Definition fairly_clean : string := "достаточно чистая".
Definition very_clean : string := "очень чистая".

(** ** [expert_analyzer.py] *)

Module ExpertAnalyzer.

(** Lines 81-112: [dirt_score = 0] followed by six [if/elif] statements,
    each adding to [dirt_score]. *)
Definition dirt_score (m : ImageMetrics) : Q :=
  let dirt_score := 0 in
  let dirt_score :=
    if decide (color_diversity m < 80) then dirt_score + 2
    else if decide (color_diversity m < 120) then dirt_score + 1
    else dirt_score in
  let dirt_score :=
    if decide (contrast m < 25) then dirt_score + 2
    else if decide (contrast m < 40) then dirt_score + 1
    else dirt_score in
  let dirt_score :=
    if decide (saturation m < 60) then dirt_score + 1.5
    else if decide (saturation m < 100) then dirt_score + 0.5
    else dirt_score in
  let dirt_score :=
    if decide (brown_ratio m > float_0_15) then dirt_score + 2
    else if decide (brown_ratio m > float_0_08) then dirt_score + 1
    else dirt_score in
  let dirt_score :=
    if decide (edge_intensity m < 15) then dirt_score + 1.5
    else if decide (edge_intensity m < 25) then dirt_score + 0.5
    else dirt_score in
  let dirt_score :=
    if decide (brightness m < 90) then dirt_score + 1
    else if decide (brightness m < 110) then dirt_score + 0.5
    else dirt_score in
  dirt_score.

(** Lines 114-129: the assignment of [status] and [emoji]. *)
Definition dirt_status (dirt_score : Q) : string * string :=
  if decide (dirt_score >= 6) then ("очень грязная", "🟤")
  else if decide (dirt_score >= 4) then ("грязная", "🟫")
  else if decide (dirt_score >= 2) then ("слегка грязная", "🟨")
  else if decide (dirt_score >= 1) then ("достаточно чистая", "🟩")
  else ("очень чистая", "✨").

(** Lines 81-141 of [analyze_dirt_level]: the result
    [(status, emoji, dirt_score, metrics)]. *)
Definition analyze_dirt_level (m : ImageMetrics)
  : string * string * Q * gmap string Q :=
  let dirt_score := dirt_score m in
  let '(status, emoji) := dirt_status dirt_score in
  let metrics : gmap string Q :=
    list_to_map [
      ("color_diversity", color_diversity m);
      ("contrast", contrast m);
      ("saturation", saturation m);
      ("brown_ratio", brown_ratio m);
      ("edge_intensity", edge_intensity m);
      ("brightness", brightness m);
      ("dirt_score", dirt_score)
    ] in
  (status, emoji, dirt_score, metrics).

(** Lines 143-235.  The result is the tuple
    [(repairability_status, repairability_message, economic_assessment)];
    the message is a tuple of lines.  No path of the function raises. *)
Definition determine_repairability
    (predicted_class : string) (confidence major_damage_prob : Q)
  : outcome (string * list string * string) :=
  let TAXI_BAN_THRESHOLD := 75.0 in
  let REPAIR_REQUIRED_THRESHOLD := 50.0 in
  let CONDITIONAL_THRESHOLD := 25.0 in
  let MINOR_DAMAGE_TAXI_LIMIT := 40.0 in
  if decide (predicted_class = "major_damage") then
    if decide (confidence > float_0_8 /\ major_damage_prob > TAXI_BAN_THRESHOLD) then
      Returned ("taxi_banned", [
        "� АВТОМОБИЛЬ ЗАПРЕЩЕН ДЛЯ РАБОТЫ В ТАКСИ!";
        "   📊 Вероятность критических повреждений: " +:+ format_1f major_damage_prob +:+ "%";
        "   � Превышен предельный порог безопасности (" +:+ str_float TAXI_BAN_THRESHOLD +:+ "%)";
        "   ⚠️ РИСКИ: Угроза безопасности пассажиров и водителя";
        "   📉 РЕПУТАЦИЯ: Серьезный ущерб имиджу таксопарка";
        "   ⚖️ ПРАВО: Нарушение требований к коммерческим перевозкам";
        "   🎯 РЕШЕНИЕ: Исключить из парка, продать или утилизировать"
      ], "safety_violation")
    else if decide (confidence > float_0_6 \/ major_damage_prob > REPAIR_REQUIRED_THRESHOLD) then
      Returned ("repair_required", [
        "🔧 ОБЯЗАТЕЛЬНЫЙ РЕМОНТ ПЕРЕД ДОПУСКОМ К РАБОТЕ";
        "   📊 Вероятность серьезных повреждений: " +:+ format_1f major_damage_prob +:+ "%";
        "   ⚖️ Превышен порог допуска к перевозкам (" +:+ str_float REPAIR_REQUIRED_THRESHOLD +:+ "%)";
        "   � СТАТУС: ВРЕМЕННО ИСКЛЮЧЕН из эксплуатации";
        "   🔧 ТРЕБОВАНИЯ: Капитальный ремонт + техосмотр";
        "   � Ожидаемые затраты: 150-500 тыс. руб.";
        "   📋 Обязательна сертификация после ремонта";
        "   ⏱️ Время простоя: 2-4 недели"
      ], "mandatory_repair")
    else if decide (major_damage_prob > CONDITIONAL_THRESHOLD) then
      Returned ("conditional_taxi", [
        "⚠️ УСЛОВНО ДОПУСТИМ С ОГРАНИЧЕНИЯМИ";
        "   📊 Вероятность серьезных повреждений: " +:+ format_1f major_damage_prob +:+ "%";
        "   🔶 В пограничной зоне (" +:+ str_float CONDITIONAL_THRESHOLD +:+ "-" +:+ str_float REPAIR_REQUIRED_THRESHOLD +:+ "%)";
        "   � ОГРАНИЧЕНИЯ: Только внутригородские поездки";
        "   � ЗАПРЕТ: Междугородние рейсы и VIP-клиенты";
        "   🔍 КОНТРОЛЬ: Еженедельные техосмотры";
        "   💼 СТРАХОВАНИЕ: Повышенные тарифы";
        "   ⏰ ПЛАН: Плановый ремонт в течение месяца"
      ], "restricted_operation")
    else
      Returned ("conditional_taxi", [
        "🔧 КОСМЕТИЧЕСКИЙ РЕМОНТ РЕКОМЕНДОВАН";
        "   📊 Вероятность серьезных повреждений: " +:+ format_1f major_damage_prob +:+ "%";
        "   ✅ Допустимо для работы в такси";
        "   🎨 ИМИДЖ: Желательно устранить видимые дефекты";
        "   💰 Затраты: 50-150 тыс. руб. на косметику";
        "   � РЕЙТИНГ: Поможет поддержать высокие оценки"
      ], "cosmetic_repair")
  else if decide (predicted_class = "minor_damage") then
    let minor_damage_prob := 100 - major_damage_prob in
    if decide (confidence > float_0_6 /\ minor_damage_prob > MINOR_DAMAGE_TAXI_LIMIT) then
      Returned ("conditional_taxi", [
        "🔧 КОСМЕТИЧЕСКИЙ РЕМОНТ ЖЕЛАТЕЛЕН ДЛЯ ТАКСИ";
        "   � Заметные косметические дефекты: " +:+ format_1f minor_damage_prob +:+ "%";
        "   ✅ БЕЗОПАСНОСТЬ: Не влияет на безопасность движения";
        "   � ИМИДЖ: Может снижать рейтинг и привлекательность для клиентов";
        "   💰 Затраты на устранение: 30-100 тыс. руб.";
        "   📱 ОТЗЫВЫ: Возможны негативные комментарии о внешнем виде";
        "   🎯 РЕКОМЕНДАЦИЯ: Плановый косметический ремонт"
      ], "image_improvement")
    else
      Returned ("taxi_ready", [
        "✅ ПРИГОДЕН ДЛЯ РАБОТЫ В ТАКСИ";
        "   🔧 Минимальные косметические дефекты";
        "   🚗 Полностью пригоден для коммерческих перевозок";
        "   💰 Затраты: 10-50 тыс. руб. на мелкий ремонт";
        "   ⏱️ Время ремонта: 1-3 дня";
        "   🏆 Сохранение хорошего рейтинга сервиса"
      ], "minor_maintenance")
  else
    Returned ("taxi_ready", [
      "🏆 ИДЕАЛЕН ДЛЯ ПРЕМИУМ ТАКСИ-СЕРВИСА";
      "   ✨ Автомобиль в отличном состоянии";
      "   � КЛАСС: Подходит для VIP и бизнес-клиентов";
      "   📈 РЕЙТИНГ: Обеспечит максимальные оценки пассажиров";
      "   💎 ТАРИФЫ: Возможность работы в премиум-сегменте";
      "   🎯 СТАТУС: Эталон качества таксопарка"
    ], "premium_ready").

(** *** [generate_expert_assessment], lines 237-463

    The function builds the list [assessment] by successive [append]s and
    returns it.  Each definition below is what one numbered part of the
    function appends. *)

(** Lines 243-252: the title lines. *)
Definition title_lines : list string :=
  [
    "┌─────────────────────────────────────────────────────────────────┐";
    "│                    🔍 СОСТОЯНИЕ ПОВРЕЖДЕНИЙ                     │";
    "└─────────────────────────────────────────────────────────────────┘";
    "� ЭКСПЕРТНОЕ ЗАКЛЮЧЕНИЕ ДЛЯ СЕРВИСА ТАКСИ";
    str_mul "=" 70;
    "\n📋 ОБЩАЯ ОЦЕНКА ТЕХНИЧЕСКОГО СОСТОЯНИЯ:"
  ].

(** Lines 263-314: the description of the damage. *)
Definition damage_lines
    (predicted_class : string)
    (confidence no_damage_prob minor_damage_prob major_damage_prob : Q)
  : list string :=
  if decide (predicted_class = "no_damage") then
    if decide (confidence > float_0_85) then [
      "✅ ОТЛИЧНОЕ СОСТОЯНИЕ: Автомобиль находится в превосходном техническом состоянии.";
      "   Вероятность отсутствия повреждений: " +:+ format_1f no_damage_prob +:+ "%";
      "   Рекомендация: Автомобиль полностью пригоден к эксплуатации и продаже."
    ]
    else if decide (confidence > float_0_7) then [
      "✅ ХОРОШЕЕ СОСТОЯНИЕ: Автомобиль в хорошем состоянии с минимальными рисками.";
      "   Основная вероятность (" +:+ format_1f no_damage_prob +:+ "%) указывает на отсутствие повреждений";
      "   Незначительный риск мелких дефектов: " +:+ format_1f minor_damage_prob +:+ "%";
      "   Рекомендация: Автомобиль пригоден к эксплуатации, рекомендуется детальный осмотр."
    ]
    else [
      "⚠️ ТРЕБУЕТ ВНИМАНИЯ: Состояние автомобиля неоднозначное.";
      "   Вероятность отсутствия повреждений: " +:+ format_1f no_damage_prob +:+ "%";
      "   Вероятность мелких повреждений: " +:+ format_1f minor_damage_prob +:+ "%";
      "   Рекомендация: ОБЯЗАТЕЛЬНА профессиональная экспертиза перед принятием решений."
    ]
  else if decide (predicted_class = "minor_damage") then
    if decide (confidence > float_0_8) then [
      "🔧 МЕЛКИЕ ПОВРЕЖДЕНИЯ: Обнаружены незначительные дефекты кузова.";
      "   Уверенность в диагнозе: " +:+ format_1f (confidence * 100) +:+ "%";
      "   Характер повреждений: Поверхностные царапины, мелкие вмятины, потертости ЛКП";
      "   Влияние на безопасность: НЕ КРИТИЧНО для безопасности движения";
      "   Влияние на стоимость: Снижение стоимости на 5-15%"
    ]
    else if decide (confidence > float_0_6) then [
      "🔧 ВЕРОЯТНЫЕ МЕЛКИЕ ПОВРЕЖДЕНИЯ: Высокая вероятность незначительных дефектов.";
      "   Вероятность мелких повреждений: " +:+ format_1f minor_damage_prob +:+ "%";
      "   Альтернативная оценка - без повреждений: " +:+ format_1f no_damage_prob +:+ "%";
      "   Рекомендация: Необходим детальный осмотр для точной оценки характера дефектов."
    ]
    else [
      "❓ НЕОПРЕДЕЛЕННОЕ СОСТОЯНИЕ: Требуется дополнительная диагностика.";
      "   Система обнаружила признаки возможных повреждений";
      "   Рекомендация: ОБЯЗАТЕЛЬНА экспертная оценка специалистом."
    ]
  else
    if decide (confidence > float_0_9) then [
      "🚨 КРИТИЧЕСКИЕ ПОВРЕЖДЕНИЯ: Автомобиль серьезно поврежден!";
      "   ⚠️ ВНИМАНИЕ: Автомобиль НЕ ПРИГОДЕН для эксплуатации!";
      "   Характер повреждений: Значительные деформации кузова, разрушение конструкций";
      "   Вероятность критических повреждений: " +:+ format_1f major_damage_prob +:+ "%"
    ]
    else if decide (confidence > float_0_8) then [
      "🚨 СЕРЬЕЗНЫЕ ПОВРЕЖДЕНИЯ: Обнаружены значительные дефекты кузова.";
      "   Уверенность в диагнозе: " +:+ format_1f (confidence * 100) +:+ "%";
      "   Характер повреждений: Глубокие вмятины, повреждения панелей, деформации";
      "   Влияние на безопасность: МОЖЕТ ВЛИЯТЬ на безопасность движения";
      "   Влияние на стоимость: Значительное снижение стоимости (30-70%)"
    ]
    else if decide (confidence > float_0_6) then [
      "⚠️ ПОДОЗРЕНИЕ НА СЕРЬЕЗНЫЕ ПОВРЕЖДЕНИЯ: Высокий риск значительных дефектов.";
      "   Вероятность серьезных повреждений: " +:+ format_1f major_damage_prob +:+ "%";
      "   Рекомендация: СРОЧНАЯ профессиональная экспертиза! Не рисковать безопасностью!"
    ]
    else [
      "❗ ПОТЕНЦИАЛЬНО ОПАСНОЕ СОСТОЯНИЕ: Обнаружены тревожные признаки.";
      "   Рекомендация: НЕМЕДЛЕННОЕ обращение к специалисту по кузовному ремонту!"
    ].

(** Lines 317-319: the heading of the taxi-fitness part. *)
Definition fitness_heading : list string :=
  [
    "\n┌─────────────────────────────────────────────────────────────────┐";
    "│            � АНАЛИЗ ПРИГОДНОСТИ ДЛЯ СЕРВИСА ТАКСИ             │";
    "└─────────────────────────────────────────────────────────────────┘"
  ].

(** Lines 325-363: the cleanliness narrative, selected by the label. *)
Definition dirt_lines (dirt_status : string) (dirt_score : Q) : list string :=
  [
    "\n┌─────────────────────────────────────────────────────────────────┐";
    "│                  🧼 АНАЛИЗ СОСТОЯНИЯ ЧИСТОТЫ И УХОДА           │";
    "└─────────────────────────────────────────────────────────────────┘"
  ] ++
  if decide (dirt_status = "очень грязная") then [
    "🟤 КРИТИЧЕСКОЕ ЗАГРЯЗНЕНИЕ:";
    "   • Автомобиль находится в крайне запущенном состоянии";
    "   • Толстый слой грязи препятствует точной диагностике повреждений";
    "   • Возможно скрытие серьезных дефектов под слоем загрязнений";
    "   • СРОЧНАЯ профессиональная мойка и детейлинг обязательны";
    "   • После очистки - ПОВТОРНАЯ диагностика необходима"
  ]
  else if decide (dirt_status = "грязная") then [
    "🟫 ЗНАЧИТЕЛЬНОЕ ЗАГРЯЗНЕНИЕ:";
    "   • Автомобиль нуждается в тщательной очистке";
    "   • Индекс загрязнения: " +:+ format_1f dirt_score +:+ "/10 (требует внимания)";
    "   • Снижена точность визуальной оценки повреждений";
    "   • Рекомендуется комплексная мойка перед детальным осмотром";
    "   • Возможны скрытые мелкие дефекты под загрязнениями"
  ]
  else if decide (dirt_status = "слегка грязная") then [
    "🟨 УМЕРЕННОЕ ЗАГРЯЗНЕНИЕ:";
    "   • Автомобиль в приемлемом состоянии чистоты";
    "   • Индекс загрязнения: " +:+ format_1f dirt_score +:+ "/10 (норма)";
    "   • Легкий налет пыли не препятствует диагностике";
    "   • Рекомендуется обычная мойка для поддержания вида";
    "   • Точность оценки повреждений не снижена"
  ]
  else if decide (dirt_status = "достаточно чистая") then [
    "🟩 ХОРОШЕЕ СОСТОЯНИЕ ЧИСТОТЫ:";
    "   • Автомобиль содержится в хорошем состоянии";
    "   • Индекс загрязнения: " +:+ format_1f dirt_score +:+ "/10 (отлично)";
    "   • Отличная видимость всех элементов кузова";
    "   • Высокая точность диагностики повреждений";
    "   • Признак ответственного отношения владельца к автомобилю"
  ]
  else [
    "✨ ИДЕАЛЬНОЕ СОСТОЯНИЕ ЧИСТОТЫ:";
    "   • Автомобиль в превосходном состоянии ухода";
    "   • Индекс загрязнения: " +:+ format_1f dirt_score +:+ "/10 (эталон)";
    "   • Идеальная видимость для точной диагностики";
    "   • Свидетельствует об отличном техническом обслуживании";
    "   • Максимальная сохранность лакокрасочного покрытия"
  ].

(** Lines 366-373: the technical parameters, read from the dict
    [dirt_metrics]; a missing key raises [KeyError]. *)
Definition technical_lines (dirt_metrics : gmap string Q) : outcome (list string) :=
  m_color_diversity ← getitem dirt_metrics "color_diversity";
  m_contrast ← getitem dirt_metrics "contrast";
  m_saturation ← getitem dirt_metrics "saturation";
  m_edge_intensity ← getitem dirt_metrics "edge_intensity";
  m_brightness ← getitem dirt_metrics "brightness";
  Returned [
    "\n┌─────────────────────────────────────────────────────────────────┐";
    "│              📊 ТЕХНИЧЕСКИЕ ПАРАМЕТРЫ ДИАГНОСТИКИ              │";
    "└─────────────────────────────────────────────────────────────────┘";
    "   • Цветовое разнообразие: " +:+ format_1f m_color_diversity +:+ " (норма: >120)";
    "   • Контрастность изображения: " +:+ format_1f m_contrast +:+ " (норма: >40)";
    "   • Насыщенность цветов: " +:+ format_1f m_saturation +:+ " (норма: >100)";
    "   • Четкость краев: " +:+ format_1f m_edge_intensity +:+ " (норма: >25)";
    "   • Общая яркость: " +:+ format_1f m_brightness +:+ " (норма: >110)"
  ].

(** Lines 376-436: the conclusion, selected by the verdict. *)
Definition conclusion_lines (repairability_status economic_status : string)
  : list string :=
  [
    "\n┌─────────────────────────────────────────────────────────────────┐";
    "│             � ЗАКЛЮЧЕНИЕ ДЛЯ СЕРВИСА ТАКСИ                    │";
    "└─────────────────────────────────────────────────────────────────┘"
  ] ++
  if decide (repairability_status = "taxi_ready") then
    if decide (economic_status = "premium_ready") then [
      "🏆 РЕКОМЕНДОВАН ДЛЯ ПРЕМИУМ-СЕГМЕНТА:";
      "   • ОТЛИЧНОЕ состояние - идеален для VIP-клиентов";
      "   • 🌟 Класс обслуживания: Премиум/Бизнес";
      "   • 💎 Тарифы: Возможность повышенных тарифов";
      "   • 📱 Рейтинг: Гарантированно высокие оценки (4.8-5.0)";
      "   • 🎯 СТАТУС: Эталон качества таксопарка"
    ]
    else [
      "✅ ДОПУЩЕН К РАБОТЕ В ТАКСИ:";
      "   • Полностью пригоден для коммерческих перевозок";
      "   • 🔧 Минимальный ремонт: 1-3 дня простоя";
      "   • 💰 Затраты: 10-50 тыс. руб. на косметику";
      "   • 📊 Класс: Стандартный/Комфорт";
      "   • 🎯 Готов к работе после мелкого обслуживания"
    ]
  else if decide (repairability_status = "conditional_taxi") then
    if decide (economic_status = "image_improvement") then [
      "🔧 ДОПУЩЕН С РЕКОМЕНДАЦИЕЙ РЕМОНТА:";
      "   • Безопасность: НЕ нарушена, можно эксплуатировать";
      "   • 📉 ИМИДЖ: Косметические дефекты влияют на привлекательность";
      "   • 💰 Плановые затраты: 30-100 тыс. руб.";
      "   • 📱 РИСК: Снижение рейтинга из-за внешнего вида";
      "   • ⏰ ПЛАН: Косметический ремонт в течение месяца"
    ]
    else if decide (economic_status = "cosmetic_repair") then [
      "✅ УСЛОВНО ДОПУЩЕН К РАБОТЕ:";
      "   • Можно использовать с косметическими дефектами";
      "   • 🎨 Рекомендация: Устранить видимые повреждения";
      "   • 💰 Затраты: 50-150 тыс. руб. на внешний вид";
      "   • 🏆 ЦЕЛЬ: Поддержание высокого стандарта сервиса"
    ]
    else [
      "⚠️ ОГРАНИЧЕННЫЙ ДОПУСК К РАБОТЕ:";
      "   • 🚫 ЗАПРЕТ: VIP-клиенты и междугородние рейсы";
      "   • 📍 ОГРАНИЧЕНИЯ: Только городские поездки";
      "   • 🔍 КОНТРОЛЬ: Еженедельные технические осмотры";
      "   • 💼 СТРАХОВАНИЕ: Повышенные тарифы ОСАГО";
      "   • ⏰ СРОК: До капитального ремонта (макс. месяц)"
    ]
  else if decide (repairability_status = "repair_required") then [
    "� ВРЕМЕННО ИСКЛЮЧЕН - ТРЕБУЕТ РЕМОНТА:";
    "   • 🚫 СТАТУС: ЗАПРЕЩЕН к коммерческим перевозкам";
    "   • ⚠️ ПРИЧИНА: Угроза безопасности пассажиров";
    "   • 🔧 ТРЕБОВАНИЯ: Обязательный капитальный ремонт";
    "   • 💰 Затраты: 150-500 тыс. руб.";
    "   • 📋 ПРОЦЕДУРА: Ремонт → техосмотр → сертификация";
    "   • ⏱️ ПРОСТОЙ: 2-4 недели без доходов";
    "   • 💡 РЕШЕНИЕ: Рассмотреть продажу вместо ремонта"
  ]
  else [
    "🚫 ИСКЛЮЧЕН ИЗ ТАКСОПАРКА НАВСЕГДА:";
    "   • ☠️ ОПАСНОСТЬ: Критическая угроза безопасности";
    "   • ⚖️ ПРАВО: Нарушение требований к коммерческим ТС";
    "   • 📉 РЕПУТАЦИЯ: Серьезный ущерб имиджу компании";
    "   • 💀 СТРАХОВАНИЕ: Полная потеря покрытия";
    "   • 🗑️ ЕДИНСТВЕННОЕ РЕШЕНИЕ: Утилизация или продажа на запчасти";
    "   • ❌ РЕМОНТ БЕСПОЛЕЗЕН: Невозможно восстановить безопасность"
  ].

(** Lines 438-451: the cleanliness advisory. *)
Definition critical_cleanliness_block : list string :=
  [
    "\n🧼 ТРЕБОВАНИЯ ПО ЧИСТОТЕ ДЛЯ ТАКСИ:";
    "   • 🚨 КРИТИЧНО: Автомобиль слишком грязный для перевозки пассажиров";
    "   • 📉 ИМИДЖ: Нарушение стандартов сервиса такси";
    "   • 🔧 ДЕЙСТВИЯ: НЕМЕДЛЕННАЯ профессиональная мойка + химчистка";
    "   • 💰 Затраты: 3-8 тыс. руб. на детейлинг";
    "   • ⏰ СРОК: До выхода на линию максимум 1 день"
  ].

Definition below_standard_cleanliness_block : list string :=
  [
    "\n🧼 РЕКОМЕНДАЦИИ ПО ЧИСТОТЕ:";
    "   • 📊 Состояние чистоты ниже стандартов такси-сервиса";
    "   • 🎯 ДЕЙСТВИЕ: Комплексная мойка перед выходом на линию";
    "   • 💰 Затраты: 1.5-3 тыс. руб. на мойку";
    "   • 🏆 ЦЕЛЬ: Соответствие имиджу качественного сервиса"
  ].

Definition cleanliness_lines (dirt_score : Q) : list string :=
  if decide (dirt_score > 6.0) then critical_cleanliness_block
  else if decide (dirt_score > 4.0) then below_standard_cleanliness_block
  else [].

(** Lines 453-461: the legal notice and the closing rule. *)
Definition legal_lines : list string :=
  [
    "\n⚖️ ПРАВОВАЯ ИНФОРМАЦИЯ ДЛЯ КОММЕРЧЕСКИХ ПЕРЕВОЗОК:";
    "   • Заключение основано на требованиях безопасности пассажирских перевозок";
    "   • ИИ-система анализирует соответствие стандартам такси-сервиса";
    "   • Точность модели: F1-score 94.4% (>5000 изображений автомобилей)";
    "   • Для официального допуска требуется техосмотр в ГИБДД";
    "   • Ответственность за безопасность пассажиров лежит на таксопарке";
    "\n" +:+ str_mul "=" 70
  ].

(** The local variables of [generate_expert_assessment] when it returns. *)
Record frame : Type := mkFrame {
  assessment : list string;
  no_damage_prob : Q;
  minor_damage_prob : Q;
  major_damage_prob : Q;
  repairability_status : string;
  repairability_msgs : list string;
  economic_status : string
}.

(** The body of the function, lines 240-461, ending with its locals. *)
Definition generate_expert_assessment_body
    (predicted_class : string) (confidence : Q) (probabilities : list Q)
    (class_names : list string)
    (dirt_status : string) (dirt_score : Q) (dirt_metrics : gmap string Q)
  : outcome frame :=
  let assessment : list string := [] in
  let assessment := assessment ++ title_lines in
  p0 ← subscript probabilities 0;
  let no_damage_prob := p0 * 100 in
  p1 ← subscript probabilities 1;
  let minor_damage_prob := p1 * 100 in
  p2 ← subscript probabilities 2;
  let major_damage_prob := p2 * 100 in
  '(repairability_status, repairability_msgs, economic_status) ←
    determine_repairability predicted_class confidence major_damage_prob;
  let assessment :=
    assessment ++ damage_lines predicted_class confidence
                    no_damage_prob minor_damage_prob major_damage_prob in
  let assessment := assessment ++ fitness_heading in
  let assessment :=
    foldl (fun assessment msg => assessment ++ [msg]) assessment repairability_msgs in
  let assessment := assessment ++ dirt_lines dirt_status dirt_score in
  technical ← technical_lines dirt_metrics;
  let assessment := assessment ++ technical in
  let assessment :=
    assessment ++ conclusion_lines repairability_status economic_status in
  let assessment := assessment ++ cleanliness_lines dirt_score in
  let assessment := assessment ++ legal_lines in
  Returned (mkFrame assessment no_damage_prob minor_damage_prob major_damage_prob
              repairability_status repairability_msgs economic_status).

(** Line 463: [return assessment]. *)
Definition generate_expert_assessment
    (predicted_class : string) (confidence : Q) (probabilities : list Q)
    (class_names : list string)
    (dirt_status : string) (dirt_score : Q) (dirt_metrics : gmap string Q)
  : outcome (list string) :=
  f ← generate_expert_assessment_body predicted_class confidence probabilities
        class_names dirt_status dirt_score dirt_metrics;
  Returned (assessment f).

(** *** [predict_damage], lines 498-512

    The network and the softmax are outside the embedding: the function
    starts from [probabilities], the row that the softmax returns for the
    image. *)
Definition predict_damage (probabilities : list Q)
  : outcome (string * Q * list Q * list string) :=
  let class_names := ["no_damage"; "minor_damage"; "major_damage"] in
  '(confidence, predicted) ← torch_max probabilities;
  let probs := probabilities in
  predicted_class ← subscript class_names predicted;
  let confidence_score := confidence in
  Returned (predicted_class, confidence_score, probs, class_names).

(** *** [analyze_image_expert], lines 538-585

    The statements of the [try] block after the files are read.  The
    result is what they print, one string for each call of [print]; an
    exception raised on the way is the one that the [except] clause
    catches and reports. *)

(** Lines 569-570: the bar of one probability; [prob] is a float32 of the
    row and so is its product by the integer 30. *)
Definition probability_bar (prob : Q) : string :=
  let bar_length := int_of (float32_mul prob 30) in
  str_mul_int "█" bar_length +:+ str_mul_int "░" (30 - bar_length).

(** Lines 568-582: the body of the loop over the classes. *)
Definition probability_row (name : string) (prob : Q) : string :=
  let bar := probability_bar prob in
  let '(emoji, display_name) :=
    if decide (name = "no_damage") then ("✅", "Без повреждений")
    else if decide (name = "minor_damage") then ("🔧", "Мелкие повреждения")
    else ("🚨", "Серьезные повреждения") in
  "   " +:+ emoji +:+ " " +:+ ljust display_name 20 +:+ ": "
    +:+ format_pct1 prob +:+ " |" +:+ bar +:+ "|".

Definition analyze_image_expert (m : ImageMetrics) (probabilities : list Q)
  : outcome (list string) :=
  let '(dirt_status, dirt_emoji, dirt_score, dirt_metrics) := analyze_dirt_level m in
  '(predicted_class, confidence, probabilities, class_names) ←
    predict_damage probabilities;
  expert_report ←
    generate_expert_assessment predicted_class confidence probabilities
      class_names dirt_status dirt_score dirt_metrics;
  let stdout : list string := [
    "\n" +:+ str_mul "=" 70;
    "📝 ЭКСПЕРТНОЕ ЗАКЛЮЧЕНИЕ";
    str_mul "=" 70
  ] in
  let stdout := foldl (fun stdout line => stdout ++ [line]) stdout expert_report in
  let stdout := stdout ++ [
    "\n┌─────────────────────────────────────────────────────────────────┐";
    "│                📋 КРАТКИЕ ТЕХНИЧЕСКИЕ ДАННЫЕ                   │";
    "└─────────────────────────────────────────────────────────────────┘";
    "🎯 Предсказанный класс: " +:+ predicted_class;
    "📈 Уверенность модели: " +:+ format_pct1 confidence;
    "🧼 Состояние чистоты: " +:+ dirt_emoji +:+ " " +:+ dirt_status +:+ " (индекс: " +:+ format_1f dirt_score +:+ ")"
  ] in
  let stdout := stdout ++ [
    "\n┌─────────────────────────────────────────────────────────────────┐";
    "│                📊 РАСПРЕДЕЛЕНИЕ ВЕРОЯТНОСТЕЙ                   │";
    "└─────────────────────────────────────────────────────────────────┘"
  ] in
  let stdout :=
    foldl (fun stdout '(name, prob) => stdout ++ [probability_row name prob])
      stdout (zip class_names probabilities) in
  let stdout := stdout ++ [
    "\n" +:+ str_mul "=" 70;
    "✅ Анализ завершен успешно!"
  ] in
  Returned stdout.

End ExpertAnalyzer.

(** ** [analyze_car_image.py] *)

Module AnalyzeCarImage.

(** Lines 93-130: the same six statements as in [expert_analyzer.py]. *)
Definition dirt_score (m : ImageMetrics) : Q :=
  let dirt_score := 0 in
  let dirt_score :=
    if decide (color_diversity m < 80) then dirt_score + 2
    else if decide (color_diversity m < 120) then dirt_score + 1
    else dirt_score in
  let dirt_score :=
    if decide (contrast m < 25) then dirt_score + 2
    else if decide (contrast m < 40) then dirt_score + 1
    else dirt_score in
  let dirt_score :=
    if decide (saturation m < 60) then dirt_score + 1.5
    else if decide (saturation m < 100) then dirt_score + 0.5
    else dirt_score in
  let dirt_score :=
    if decide (brown_ratio m > float_0_15) then dirt_score + 2
    else if decide (brown_ratio m > float_0_08) then dirt_score + 1
    else dirt_score in
  let dirt_score :=
    if decide (edge_intensity m < 15) then dirt_score + 1.5
    else if decide (edge_intensity m < 25) then dirt_score + 0.5
    else dirt_score in
  let dirt_score :=
    if decide (brightness m < 90) then dirt_score + 1
    else if decide (brightness m < 110) then dirt_score + 0.5
    else dirt_score in
  dirt_score.

(** Lines 132-142: the five [return] statements
    [(label, emoji, details)]. *)
Definition dirt_status (dirt_score : Q) : string * string * string :=
  if decide (dirt_score >= 6) then
    ("очень грязная", "�", "(индекс грязи: " +:+ format_1f dirt_score +:+ ")")
  else if decide (dirt_score >= 4) then
    ("грязная", "🟫", "(индекс грязи: " +:+ format_1f dirt_score +:+ ")")
  else if decide (dirt_score >= 2) then
    ("слегка грязная", "🟨", "(индекс грязи: " +:+ format_1f dirt_score +:+ ")")
  else if decide (dirt_score >= 1) then
    ("достаточно чистая", "🟩", "(индекс грязи: " +:+ format_1f dirt_score +:+ ")")
  else
    ("очень чистая", "✨", "(индекс грязи: " +:+ format_1f dirt_score +:+ ")").

(** Lines 93-142 of [analyze_dirt_level]. *)
Definition analyze_dirt_level (m : ImageMetrics) : string * string * string :=
  dirt_status (dirt_score m).

(** *** [get_human_comment], lines 144-195

    The function appends to the list [comments] and returns it. *)

(** Lines 149-179: the comments on the damage. *)
Definition damage_comments (predicted_class : string) (confidence : Q)
  : list string :=
  if decide (predicted_class = "no_damage") then
    if decide (confidence > float_0_8) then [
      "Автомобиль в отличном состоянии! 👌";
      "Видимых повреждений не обнаружено"
    ]
    else if decide (confidence > float_0_6) then [
      "Машина выглядит хорошо, но стоит присмотреться внимательнее"
    ]
    else [
      "Сложно сказать точно - нужен более детальный осмотр"
    ]
  else if decide (predicted_class = "minor_damage") then
    if decide (confidence > float_0_7) then [
      "Есть мелкие повреждения - ничего критичного 🔧";
      "Возможно, пару царапин или небольших вмятин";
      "Автомобиль пригоден к эксплуатации"
    ]
    else [
      "Похоже на мелкие повреждения, но лучше проверить"
    ]
  else
    if decide (confidence > float_0_9) then [
      "АВТОМОБИЛЬ ПОЛНОСТЬЮ РАЗРУШЕН! ☠️";
      "Машина НЕ ПРИГОДНА для восстановления";
      "Рекомендуется утилизация"
    ]
    else if decide (confidence > float_0_8) then [
      "Машина серьезно пострадала! 🚨";
      "Требуется капитальный ремонт";
      "Не рекомендуется к эксплуатации без ремонта"
    ]
    else if decide (confidence > float_0_6) then [
      "Серьезные повреждения - нужна экспертиза";
      "Возможно, дорогостоящий ремонт"
    ]
    else [
      "Подозрение на серьезные повреждения"
    ].

(** Lines 181-193: the comments on the cleanliness; the tests are
    substring tests, [label in dirt_status]. *)
Definition dirt_comments (dirt_status : string) : list string :=
  if str_in "очень грязная" dirt_status then [
    "Машина в ужасном состоянии по чистоте - невозможно оценить истинные повреждения";
    "Срочно требуется профессиональная мойка"
  ]
  else if str_in "грязная" dirt_status then [
    "Автомобиль нуждается в хорошей мойке";
    "Грязь затрудняет точную оценку состояния"
  ]
  else if str_in "слегка грязная" dirt_status then [
    "Небольшая пыль - в целом состояние приемлемое"
  ]
  else if str_in "достаточно чистая" dirt_status then [
    "Автомобиль в хорошем состоянии чистоты"
  ]
  else [
    "Автомобиль идеально чистый - отлично видно все детали"
  ].

Definition get_human_comment
    (predicted_class : string) (confidence : Q) (dirt_status : string)
  : list string :=
  let comments : list string := [] in
  let comments := comments ++ damage_comments predicted_class confidence in
  let comments := comments ++ dirt_comments dirt_status in
  comments.

(** *** [predict_damage], lines 197-220

    As in [expert_analyzer.py], from the row that the softmax returns; the
    cleanliness is analysed first and the comments are attached. *)
Definition predict_damage (m : ImageMetrics) (probabilities : list Q)
  : outcome (string * Q * list Q * list string
             * string * string * list string * string) :=
  let class_names := ["no_damage"; "minor_damage"; "major_damage"] in
  let '(dirt_status, dirt_emoji, dirt_details) := analyze_dirt_level m in
  '(confidence, predicted) ← torch_max probabilities;
  let probs := probabilities in
  predicted_class ← subscript class_names predicted;
  let confidence_score := confidence in
  let human_comments := get_human_comment predicted_class confidence_score dirt_status in
  Returned (predicted_class, confidence_score, probs, class_names,
            dirt_status, dirt_emoji, human_comments, dirt_details).

(** *** [analyze_image], lines 264-383

    The statements of the [try] block after the files are read.  The
    result is what they print, one string for each call of [print]; an
    exception raised on the way is the one that the [except] clause
    catches and reports. *)

(** Lines 277-282. *)
Definition confidence_status (confidence : Q) : string :=
  if decide (confidence > float_0_8) then "🟢 Высокая уверенность"
  else if decide (confidence > float_0_6) then "🟡 Средняя уверенность"
  else "🔴 Низкая уверенность".

(** Lines 288-289: the bar of one probability; [prob] is a float32 of the
    row and so is its product by the integer 30. *)
Definition probability_bar (prob : Q) : string :=
  let bar_length := int_of (float32_mul prob 30) in
  str_mul_int "█" bar_length +:+ str_mul_int "░" (30 - bar_length).

(** Lines 287-299: the body of the loop over the classes. *)
Definition probability_row (name : string) (prob : Q) : string :=
  let bar := probability_bar prob in
  let emoji :=
    if decide (name = "no_damage") then "✅"
    else if decide (name = "minor_damage") then "🔧"
    else "🚨" in
  "   " +:+ emoji +:+ " " +:+ ljust name 15 +:+ ": "
    +:+ format_pct1 prob +:+ " |" +:+ bar +:+ "|".

(** Lines 305-309: the comments, numbered from 1; the first one is
    marked. *)
Definition comment_lines (human_comments : list string) : list string :=
  imap (fun index comment =>
          let i := S index in
          if decide (i = 1%nat) then "   🔍 " +:+ comment
          else "   • " +:+ comment)
       human_comments.

(** Lines 316-343: the recommendations for the damage. *)
Definition recommendation_lines (predicted_class : string) (confidence : Q)
  : list string :=
  if decide (predicted_class = "major_damage") then
    if decide (confidence > float_0_9) then [
      "☠️  КРИТИЧЕСКОЕ СОСТОЯНИЕ:";
      "   • АВТОМОБИЛЬ НЕ ПОДЛЕЖИТ ВОССТАНОВЛЕНИЮ!";
      "   • Обратиться в страховую для списания";
      "   • Рассмотреть утилизацию через специализированные центры";
      "   • НЕ ПЫТАТЬСЯ ЭКСПЛУАТИРОВАТЬ!"
    ]
    else if decide (confidence > float_0_7) then [
      "🚨 КРИТИЧЕСКИЕ ПОВРЕЖДЕНИЯ:";
      "   • Немедленно прекратить эксплуатацию!";
      "   • Вызвать эвакуатор";
      "   • Обязательная экспертиза специалиста";
      "   • Оценить экономическую целесообразность ремонта"
    ]
    else [
      "⚠️  ПОДОЗРЕНИЕ НА СЕРЬЕЗНЫЕ ПОВРЕЖДЕНИЯ:";
      "   • Детальный осмотр специалистом";
      "   • Не рисковать - лучше перестраховаться"
    ]
  else if decide (predicted_class = "minor_damage") then [
    "🔧 ПЛАНОВОЕ ОБСЛУЖИВАНИЕ:";
    "   • Устранить мелкие повреждения в ближайшее время";
    "   • Проверить лакокрасочное покрытие";
    "   • Автомобиль можно эксплуатировать";
    "   • Рекомендуется устранить дефекты для сохранения стоимости"
  ]
  else if decide (predicted_class = "no_damage" /\ confidence > float_0_8) then [
    "✅ ОТЛИЧНОЕ СОСТОЯНИЕ:";
    "   • Поддерживать текущее состояние";
    "   • Регулярное техническое обслуживание";
    "   • Автомобиль готов к продаже/использованию"
  ]
  else [].

(** Lines 347-374: the recommendations for the cleanliness. *)
Definition cleanliness_lines (dirt_status : string) : list string :=
  if str_in "очень грязная" dirt_status then [
    "   🟤 КРИТИЧЕСКАЯ ЗАГРЯЗНЕННОСТЬ:";
    "   • Срочная профессиональная мойка и детейлинг";
    "   • Может потребоваться химчистка салона";
    "   • Грязь серьезно влияет на оценку повреждений";
    "   • После мойки - повторный осмотр обязателен"
  ]
  else if decide (dirt_status = "грязная") then [
    "   🟫 СИЛЬНОЕ ЗАГРЯЗНЕНИЕ:";
    "   • Рекомендуется комплексная мойка";
    "   • Использовать профессиональные моющие средства";
    "   • Обратить внимание на труднодоступные места";
    "   • После мойки проверить наличие скрытых повреждений"
  ]
  else if decide (dirt_status = "слегка грязная") then [
    "   🟨 ЛЕГКОЕ ЗАГРЯЗНЕНИЕ:";
    "   • Обычная мойка справится с загрязнением";
    "   • Можно помыть самостоятельно";
    "   • Состояние не критично, но лучше поддерживать чистоту"
  ]
  else if decide (dirt_status = "достаточно чистая") then [
    "   🟩 ХОРОШАЯ ЧИСТОТА:";
    "   • Автомобиль в приемлемом состоянии";
    "   • Легкая мойка для поддержания вида";
    "   • Отличная видимость для оценки повреждений"
  ]
  else if decide (dirt_status = "очень чистая") then [
    "   ✨ ИДЕАЛЬНАЯ ЧИСТОТА:";
    "   • Автомобиль в превосходном состоянии!";
    "   • Отличная видимость всех деталей";
    "   • Поддерживать текущий уровень чистоты";
    "   • Идеальные условия для точной оценки"
  ]
  else [].

(** Lines 376-381: the advice printed for a low confidence. *)
Definition additional_check_lines (confidence : Q) : list string :=
  if decide (confidence < float_0_6) then [
    nl +:+ "⚠️  ДОПОЛНИТЕЛЬНАЯ ПРОВЕРКА:";
    "   • Сделать фото при хорошем освещении";
    "   • Убедиться, что автомобиль полностью в кадре";
    "   • Рассмотреть разные ракурсы";
    "   • При сомнениях - консультация с экспертом"
  ]
  else [].

(** Lines 268-383. *)
Definition analyze_image_results
    (predicted_class : string) (confidence : Q) (probabilities : list Q)
    (class_names : list string) (dirt_status dirt_emoji : string)
    (human_comments : list string) (dirt_details : string)
  : list string :=
  let stdout : list string := [
    nl +:+ str_mul "=" 60;
    "📊 РЕЗУЛЬТАТЫ АНАЛИЗА:";
    str_mul "=" 60;
    "🎯 Предсказанный класс: " +:+ predicted_class;
    "📈 Уверенность: " +:+ format_pct1 confidence;
    "🧼 Чистота: " +:+ dirt_emoji +:+ " " +:+ dirt_status +:+ " " +:+ dirt_details
  ] in
  let confidence_status := confidence_status confidence in
  let stdout := stdout ++ [
    "📊 Статус: " +:+ confidence_status;
    nl +:+ "📋 Детальные вероятности:"
  ] in
  let stdout :=
    foldl (fun stdout '(name, prob) => stdout ++ [probability_row name prob])
      stdout (zip class_names probabilities) in
  let stdout := stdout ++ [
    nl +:+ str_mul "=" 60;
    "� ЭКСПЕРТНОЕ ЗАКЛЮЧЕНИЕ:"
  ] in
  let stdout := stdout ++ comment_lines human_comments in
  let stdout := stdout ++ [
    nl +:+ str_mul "=" 60;
    "💡 РЕКОМЕНДАЦИИ:"
  ] in
  let stdout := stdout ++ recommendation_lines predicted_class confidence in
  let stdout := stdout ++ [
    nl +:+ "🧼 СОСТОЯНИЕ ЧИСТОТЫ:"
  ] in
  let stdout := stdout ++ cleanliness_lines dirt_status in
  let stdout := stdout ++ additional_check_lines confidence in
  let stdout := stdout ++ [ str_mul "=" 60 ] in
  stdout.

(** Lines 264-383 of [analyze_image]. *)
Definition analyze_image (m : ImageMetrics) (probabilities : list Q)
  : outcome (list string) :=
  '(predicted_class, confidence, probabilities, class_names,
    dirt_status, dirt_emoji, human_comments, dirt_details) ←
    predict_damage m probabilities;
  Returned (analyze_image_results predicted_class confidence probabilities
              class_names dirt_status dirt_emoji human_comments dirt_details).

End AnalyzeCarImage.

(** ** Vocabulary of the specification *)

Module Spec.

(** The six additive contributions, as the specification words them; its
    thresholds are the literals of the source. *)
Definition color_diversity_points (x : Q) : Q :=
  if decide (x < 80) then 2 else if decide (x < 120) then 1 else 0.

Definition contrast_points (x : Q) : Q :=
  if decide (x < 25) then 2 else if decide (x < 40) then 1 else 0.

Definition saturation_points (x : Q) : Q :=
  if decide (x < 60) then 1.5 else if decide (x < 100) then 0.5 else 0.

Definition brown_ratio_points (x : Q) : Q :=
  if decide (x > float_0_15) then 2 else if decide (x > float_0_08) then 1 else 0.

Definition edge_intensity_points (x : Q) : Q :=
  if decide (x < 15) then 1.5 else if decide (x < 25) then 0.5 else 0.

Definition brightness_points (x : Q) : Q :=
  if decide (x < 90) then 1 else if decide (x < 110) then 0.5 else 0.

Definition six_contributions (m : ImageMetrics) : Q :=
  color_diversity_points (color_diversity m)
  + contrast_points (contrast m)
  + saturation_points (saturation m)
  + brown_ratio_points (brown_ratio m)
  + edge_intensity_points (edge_intensity m)
  + brightness_points (brightness m).

(** [dirtier_in_one m m']: [m'] is [m] with a single metric moved away
    from its clean end (five of them downwards, the brown ratio upwards)
    and the other five unchanged. *)
Inductive dirtier_in_one : ImageMetrics -> ImageMetrics -> Prop :=
| lower_color_diversity cd cd' c s b e br :
    cd' <= cd ->
    dirtier_in_one (mkImageMetrics cd c s b e br) (mkImageMetrics cd' c s b e br)
| lower_contrast cd c c' s b e br :
    c' <= c ->
    dirtier_in_one (mkImageMetrics cd c s b e br) (mkImageMetrics cd c' s b e br)
| lower_saturation cd c s s' b e br :
    s' <= s ->
    dirtier_in_one (mkImageMetrics cd c s b e br) (mkImageMetrics cd c s' b e br)
| higher_brown_ratio cd c s b b' e br :
    b <= b' ->
    dirtier_in_one (mkImageMetrics cd c s b e br) (mkImageMetrics cd c s b' e br)
| lower_edge_intensity cd c s b e e' br :
    e' <= e ->
    dirtier_in_one (mkImageMetrics cd c s b e br) (mkImageMetrics cd c s b e' br)
| lower_brightness cd c s b e br br' :
    br' <= br ->
    dirtier_in_one (mkImageMetrics cd c s b e br) (mkImageMetrics cd c s b e br').

(** The [(status, economic_tag)] pair and the rationale lines of a
    decision. *)
Definition verdict (r : outcome (string * list string * string))
  : outcome (string * string) :=
  '(status, _, economic_tag) ← r; Returned (status, economic_tag).


(** The seven verdicts of the cascade. *)
Definition verdicts : list (string * string) :=
  [ ("taxi_banned", "safety_violation");
    ("repair_required", "mandatory_repair");
    ("conditional_taxi", "restricted_operation");
    ("conditional_taxi", "cosmetic_repair");
    ("conditional_taxi", "image_improvement");
    ("taxi_ready", "minor_maintenance");
    ("taxi_ready", "premium_ready") ].

(** The contract of a prediction: a known class label, a confidence in
    (0,1], and three probabilities whose sum is within [eps] of 1. *)
Definition known_class (predicted_class : string) : Prop :=
  predicted_class = "no_damage"
  \/ predicted_class = "minor_damage"
  \/ predicted_class = "major_damage".

Definition prediction_contract
    (eps : Q) (predicted_class : string) (confidence : Q)
    (probabilities : list Q) : Prop :=
  known_class predicted_class
  /\ 0 < confidence <= 1
  /\ length probabilities = 3%nat
  /\ Qabs (foldr Qplus 0 probabilities - 1) <= eps.



(** A dirt assessment hands over a dict that has the five keys the report
    prints. *)
Definition dirt_metrics_complete (dirt_metrics : gmap string Q) : Prop :=
  Forall (fun key => is_Some (dirt_metrics !! key))
    ["color_diversity"; "contrast"; "saturation"; "edge_intensity"; "brightness"].

(** The first line of each of the two advisory blocks. *)
Definition critical_cleanliness_heading : string :=
  default "" (head ExpertAnalyzer.critical_cleanliness_block).

Definition below_standard_cleanliness_heading : string :=
  default "" (head ExpertAnalyzer.below_standard_cleanliness_block).

(** Both headings, and no other line of a report, start like this. *)
Definition advisory_mark (line : string) : bool :=
  String.prefix "\n🧼" line.

(** Two cars for the examples: one at the clean end of every metric, one
    at the dirty end. *)
Definition spotless : ImageMetrics := mkImageMetrics 150 50 150 0.02 30 180.
Definition muddy : ImageMetrics := mkImageMetrics 50 20 50 0.2 10 80.

(** The severity of a verdict, from the best one to the worst one. *)
Definition severity (v : string * string) : nat :=
  if decide (v = ("taxi_ready", "premium_ready")) then 0
  else if decide (v = ("taxi_ready", "minor_maintenance")) then 1
  else if decide (v = ("conditional_taxi", "image_improvement")) then 2
  else if decide (v = ("conditional_taxi", "cosmetic_repair")) then 3
  else if decide (v = ("conditional_taxi", "restricted_operation")) then 4
  else if decide (v = ("repair_required", "mandatory_repair")) then 5
  else 6.

(** The three class names of [predict_damage], in the order of the row. *)
Definition class_names : list string :=
  ["no_damage"; "minor_damage"; "major_damage"].

End Spec.

(** The float literals are plain rationals for the arithmetic tactics. *)
Ltac float_literals :=
  unfold float_0_9, float_0_85, float_0_8, float_0_7, float_0_6,
    float_0_15, float_0_08 in *.

(** ** Printing with one decimal *)

Section Formatting.

Example format_1f_integer : format_1f 80 = "80.0".
Proof. reflexivity. Qed.

Example format_1f_tie_to_even : format_1f 0.25 = "0.2" /\ format_1f 0.75 = "0.8".
Proof. split; reflexivity. Qed.

Example format_1f_carry : format_1f 99.96 = "100.0".
Proof. reflexivity. Qed.

Example format_1f_negative : format_1f (-12.34) = "-12.3".
Proof. reflexivity. Qed.

Lemma floor_of_equal_fractions (a b c d : Z) :
  (0 < b)%Z -> (0 < d)%Z -> (a * d = c * b)%Z -> (a / b = c / d)%Z.
Proof.
  intros Hb Hd Heq.
  rewrite <- (Z.div_mul_cancel_r a b d) by lia.
  rewrite <- (Z.div_mul_cancel_r c d b) by lia.
  rewrite Heq, (Z.mul_comm b d). reflexivity.
Qed.

(** The rounding depends on the value of the fraction, not on the way it
    is written. *)
Lemma round_half_even_proper (x y : Q) :
  x == y -> round_half_even x = round_half_even y.
Proof.
  unfold Qeq, round_half_even. intros Heq. cbv zeta.
  set (a := Qnum x) in *. set (b := Z.pos (Qden x)) in *.
  set (c := Qnum y) in *. set (d := Z.pos (Qden y)) in *.
  assert (Hb : (0 < b)%Z) by (unfold b; lia).
  assert (Hd : (0 < d)%Z) by (unfold d; lia).
  pose proof (floor_of_equal_fractions a b c d Hb Hd Heq) as Hfloor.
  assert (Hcmp : (2 * (a mod b) ?= b)%Z = (2 * (c mod d) ?= d)%Z).
  { rewrite (Zmult_compare_compat_r (2 * (a mod b)) b d) by lia.
    rewrite (Zmult_compare_compat_r (2 * (c mod d)) d b) by lia.
    rewrite !Z.mod_eq by lia. rewrite Hfloor.
    f_equal; lia. }
  rewrite Hcmp, Hfloor. reflexivity.
Qed.

Lemma format_1f_proper (x y : Q) : x == y -> format_1f x = format_1f y.
Proof.
  intros Heq. unfold format_1f. cbv zeta.
  rewrite (round_half_even_proper (Qabs x * 10) (Qabs y * 10))
    by (rewrite Heq; reflexivity).
  destruct (decide (x < 0)), (decide (y < 0)); try reflexivity; lra.
Qed.

End Formatting.

(** ** Floats *)

Section Floats.

(** The literals are the floats nearest to the decimals they spell. *)
Lemma float_literals_are_nearest :
  float_0_9 == binary64 0.9 /\ float_0_85 == binary64 0.85
  /\ float_0_8 == binary64 0.8 /\ float_0_7 == binary64 0.7
  /\ float_0_6 == binary64 0.6 /\ float_0_15 == binary64 0.15
  /\ float_0_08 == binary64 0.08.
Proof. repeat split; vm_compute; reflexivity. Qed.

(** Three of them lie above their decimal, four below. *)
Lemma float_literals_sides :
  0.9 < float_0_9 /\ float_0_85 < 0.85 /\ 0.8 < float_0_8 /\ float_0_7 < 0.7
  /\ float_0_6 < 0.6 /\ float_0_15 < 0.15 /\ 0.08 < float_0_08.
Proof. repeat split. Qed.

(** A float is rounded to itself. *)
Example binary64_of_floats :
  binary64 75.0 == 75.0 /\ binary64 0.5 == 0.5 /\ binary64 1.5 == 1.5
  /\ binary64 float_0_8 == float_0_8 /\ binary32 0.25 == 0.25.
Proof. repeat split; vm_compute; reflexivity. Qed.

(** The nearest integer is at most one half away. *)
Lemma round_half_even_error (z : Q) :
  inject_Z (round_half_even z) - (1 # 2) <= z <= inject_Z (round_half_even z) + (1 # 2).
Proof.
  destruct z as [n d]. unfold round_half_even. cbn [Qnum Qden].
  pose proof (Z.div_mod n (Z.pos d)) as Hdiv.
  pose proof (Z.mod_pos_bound n (Z.pos d)) as Hmod.
  destruct (Z.compare_spec (2 * (n mod Z.pos d)) (Z.pos d)) as [H | H | H];
    [destruct (Z.even (n / Z.pos d)) |..];
    unfold Qle, Qminus, Qplus, Qopp, inject_Z; cbn [Qnum Qden]; nia.
Qed.

Lemma round_half_even_nonneg (z : Q) : 0 <= z -> (0 <= round_half_even z)%Z.
Proof.
  destruct z as [n d]. unfold round_half_even, Qle. cbn [Qnum Qden]. intros Hn.
  assert (0 <= n / Z.pos d)%Z by (apply Z.div_pos; lia).
  destruct (2 * (n mod Z.pos d) ?= Z.pos d)%Z;
    [destruct (Z.even (n / Z.pos d)) |..]; lia.
Qed.

Lemma Qpower_2_nonneg (e : Z) : (0 <= e)%Z -> 2 ^ e == inject_Z (2 ^ e).
Proof. intros He. rewrite (Zpower_Qpower 2 e He). reflexivity. Qed.

Lemma Qpower_2_pos (e : Z) : 0 < 2 ^ e.
Proof. apply Qpower_0_lt. reflexivity. Qed.

Lemma Qabs_of_nonneg (x : Q) : 0 <= x -> Qabs x = x.
Proof.
  destruct x as [[| n | n] d]; try reflexivity.
  unfold Qle. cbn. lia.
Qed.

(** The power of two that [ilog2] finds is not above the number. *)
Lemma ilog2_lower (x : Q) : 0 < x -> 2 ^ ilog2 x <= x.
Proof.
  intros Hx. unfold ilog2. cbv zeta. case_decide as Hlt; [| lra].
  destruct x as [n d]. cbn [Qnum Qden] in *.
  assert (Hn : (0 < n)%Z) by (unfold Qlt in Hx; cbn in Hx; lia).
  pose proof (Z.log2_spec n Hn) as [Hlow _].
  pose proof (Z.log2_spec (Z.pos d) eq_refl) as [_ Hhigh].
  pose proof (Z.log2_nonneg n) as Ha.
  pose proof (Z.log2_nonneg (Z.pos d)) as Hb.
  replace (Z.log2 n - Z.log2 (Z.pos d) - 1)%Z
    with (Z.log2 n - Z.succ (Z.log2 (Z.pos d)))%Z by lia.
  rewrite Qpower_minus by discriminate.
  rewrite !Qpower_2_nonneg by lia.
  set (A := (2 ^ Z.log2 n)%Z) in *.
  set (B := (2 ^ Z.succ (Z.log2 (Z.pos d)))%Z) in *.
  assert (HB : (0 < B)%Z) by lia.
  apply Qle_shift_div_r; [unfold Qlt; cbn; lia |].
  unfold Qle, Qmult, inject_Z. cbn [Qnum Qden]. nia.
Qed.

(** The number is below the next power of two. *)
Lemma ilog2_upper (x : Q) : 0 < x -> x < 2 ^ (ilog2 x + 1).
Proof.
  intros Hx. unfold ilog2. cbv zeta. case_decide as Hlt.
  { match goal with |- _ < 2 ^ ?e => replace e with
      (Z.log2 (Qnum x) - Z.log2 (Z.pos (Qden x)))%Z by lia end.
    exact Hlt. }
  clear Hlt. destruct x as [n d]. cbn [Qnum Qden] in *.
  assert (Hn : (0 < n)%Z) by (unfold Qlt in Hx; cbn in Hx; lia).
  pose proof (Z.log2_spec n Hn) as [_ Hhigh].
  pose proof (Z.log2_spec (Z.pos d) eq_refl) as [Hlow _].
  pose proof (Z.log2_nonneg n) as Ha.
  pose proof (Z.log2_nonneg (Z.pos d)) as Hb.
  replace (Z.log2 n - Z.log2 (Z.pos d) + 1)%Z
    with (Z.succ (Z.log2 n) - Z.log2 (Z.pos d))%Z by lia.
  rewrite Qpower_minus by discriminate.
  rewrite !Qpower_2_nonneg by lia.
  set (A := (2 ^ Z.succ (Z.log2 n))%Z) in *.
  set (B := (2 ^ Z.log2 (Z.pos d))%Z) in *.
  assert (HB : (0 < B)%Z) by lia.
  apply Qlt_shift_div_l; [unfold Qlt; cbn; lia |].
  unfold Qlt, Qmult, inject_Z. cbn [Qnum Qden]. nia.
Qed.

(** Rounding keeps the sign. *)
Lemma round_float_nonneg (prec emin : Z) (x : Q) :
  0 <= x -> 0 <= round_float prec emin x.
Proof.
  intros Hx. unfold round_float. cbv zeta.
  case_decide; [lra |]. case_decide; [lra |].
  apply Qmult_le_0_compat; [| apply Qlt_le_weak, Qpower_2_pos].
  change 0 with (inject_Z 0). rewrite <- Zle_Qle.
  apply round_half_even_nonneg. rewrite Qabs_of_nonneg by exact Hx.
  apply Qle_shift_div_l; [apply Qpower_2_pos | lra].
Qed.

(** A positive number is rounded to a multiple of its quantum, at most
    half a quantum away. *)
Lemma round_float_error (prec emin : Z) (x : Q) :
  0 < x ->
  let quantum := 2 ^ Z.max (ilog2 x - (prec - 1)) emin in
  exists mantissa : Z,
    round_float prec emin x == inject_Z mantissa * quantum
    /\ Qabs (round_float prec emin x - x) <= quantum / 2.
Proof.
  intros Hx quantum. unfold round_float. cbv zeta.
  case_decide; [lra |]. case_decide; [lra |].
  rewrite Qabs_of_nonneg by lra. fold quantum.
  exists (round_half_even (x / quantum)). split; [reflexivity |].
  pose proof (round_half_even_error (x / quantum)) as [Hlow Hhigh].
  assert (Hq : 0 < quantum) by apply Qpower_2_pos.
  set (mantissa := inject_Z (round_half_even (x / quantum))) in *.
  assert (Hx' : x == (x / quantum) * quantum) by (field; lra).
  apply Qabs_case; intros _.
  - apply (Qmult_le_r _ _ quantum Hq) in Hlow.
    rewrite <- Hx' in Hlow. unfold Qdiv.
    change (/ 2) with (1 # 2). lra.
  - apply (Qmult_le_r _ _ quantum Hq) in Hhigh.
    rewrite <- Hx' in Hhigh. unfold Qdiv.
    change (/ 2) with (1 # 2). lra.
Qed.

(** The float32 product of a probability by 30 is within [2^-20] of the
    exact product. *)
Lemma float32_mul_30 (prob : Q) :
  0 <= prob <= 1 ->
  0 <= float32_mul prob 30
  /\ Qabs (float32_mul prob 30 - prob * 30) <= 1 # 1048576.
Proof.
  intros Hprob. unfold float32_mul, binary32.
  split; [apply round_float_nonneg; lra |].
  destruct (decide (prob * 30 == 0)) as [Hzero | Hpositive].
  - unfold round_float. case_decide; [| done].
    apply Qabs_case; intros _; lra.
  - assert (Hy : 0 < prob * 30) by lra.
    destruct (round_float_error 24 (-149) (prob * 30) Hy) as (_ & _ & Herror).
    apply (Qle_trans _ _ _ Herror).
    pose proof (ilog2_lower _ Hy) as Hlog.
    assert (Hexponent : (ilog2 (prob * 30) < 5)%Z).
    { apply (Qpower_lt_compat_l_inv 2); [| reflexivity].
      change (2 ^ 5) with 32. lra. }
    assert (Hquantum : 2 ^ Z.max (ilog2 (prob * 30) - (24 - 1)) (-149) <= 2 ^ (-19)).
    { apply Qpower_le_compat_l; [lia | discriminate]. }
    change (2 ^ (-19)) with (1 # 524288) in Hquantum.
    unfold Qdiv. change (/ 2) with (1 # 2). lra.
Qed.

(** A float of [prec] bits that is not below [2^(prec-1-scale)] is a
    multiple of [2^-scale]. *)
Lemma float_grid (prec scale : Z) (x : Q) :
  (0 <= prec)%Z -> (0 <= scale)%Z ->
  is_float prec x -> 2 ^ (prec - 1 - scale) <= x ->
  exists k : Z, x == inject_Z k / inject_Z (2 ^ scale).
Proof.
  intros Hprec Hscale (m & e & Hm & Hx) Hlarge.
  destruct (decide (- scale <= e)%Z) as [He | He].
  - exists (m * 2 ^ (e + scale))%Z. rewrite Hx.
    replace e with ((e + scale) - scale)%Z at 1 by lia.
    rewrite Qpower_minus by discriminate.
    rewrite !Qpower_2_nonneg by lia.
    rewrite inject_Z_mult. unfold Qdiv. ring.
  - exfalso.
    assert (Hbound : inject_Z m * 2 ^ e < 2 ^ (prec + e)).
    { rewrite Qpower_plus by discriminate. rewrite (Qpower_2_nonneg prec Hprec).
      apply Qmult_lt_r; [apply Qpower_2_pos |].
      rewrite <- Zlt_Qlt. lia. }
    assert (Hsmall : 2 ^ (prec + e) <= 2 ^ (prec - 1 - scale)).
    { apply Qpower_le_compat_l; [lia | discriminate]. }
    lra.
Qed.

(** Python floats from one half on are multiples of [2^-53], from one
    eighth on of [2^-55], from one sixteenth on of [2^-56]; float32 numbers
    from one half on are multiples of [2^-24]. *)
Lemma float_grid_53 (x : Q) :
  is_float 53 x -> 1 # 2 <= x -> exists k : Z, x == k # 9007199254740992.
Proof.
  intros Hfloat Hlarge.
  destruct (float_grid 53 53 x) as (k & Hk); [lia | lia | exact Hfloat | exact Hlarge |].
  exists k. rewrite Hk. change (inject_Z (2 ^ 53)) with (9007199254740992 # 1).
  unfold Qeq, Qdiv, Qmult, Qinv, inject_Z. cbn. lia.
Qed.

Lemma float_grid_55 (x : Q) :
  is_float 53 x -> 1 # 8 <= x -> exists k : Z, x == k # 36028797018963968.
Proof.
  intros Hfloat Hlarge.
  destruct (float_grid 53 55 x) as (k & Hk); [lia | lia | exact Hfloat | exact Hlarge |].
  exists k. rewrite Hk. change (inject_Z (2 ^ 55)) with (36028797018963968 # 1).
  unfold Qeq, Qdiv, Qmult, Qinv, inject_Z. cbn. lia.
Qed.

Lemma float_grid_56 (x : Q) :
  is_float 53 x -> 1 # 16 <= x -> exists k : Z, x == k # 72057594037927936.
Proof.
  intros Hfloat Hlarge.
  destruct (float_grid 53 56 x) as (k & Hk); [lia | lia | exact Hfloat | exact Hlarge |].
  exists k. rewrite Hk. change (inject_Z (2 ^ 56)) with (72057594037927936 # 1).
  unfold Qeq, Qdiv, Qmult, Qinv, inject_Z. cbn. lia.
Qed.

Lemma float_grid_24 (x : Q) :
  is_float 24 x -> 1 # 2 <= x -> exists k : Z, x == k # 16777216.
Proof.
  intros Hfloat Hlarge.
  destruct (float_grid 24 24 x) as (k & Hk); [lia | lia | exact Hfloat | exact Hlarge |].
  exists k. rewrite Hk. change (inject_Z (2 ^ 24)) with (16777216 # 1).
  unfold Qeq, Qdiv, Qmult, Qinv, inject_Z. cbn. lia.
Qed.

#[local] Ltac on_the_grid Hx :=
  float_literals; repeat split; intros; destruct_and?; rewrite Hx in *;
  unfold Qlt, Qeq in *; cbn in *; lia.

(** On Python floats a comparison with a float literal is the comparison
    with the decimal, except at the float of the literal itself when it
    lies on the other side of the decimal: [x > 0.8] holds of the float
    0.8 for the decimals and fails in Python. *)
Lemma literals_on_floats (x : Q) :
  is_float 53 x ->
  (x > float_0_6 <-> x > 0.6)
  /\ (x > float_0_7 <-> x > 0.7)
  /\ (x > float_0_85 <-> x > 0.85)
  /\ (x > float_0_15 <-> x > 0.15)
  /\ (x > float_0_8 <-> x > 0.8 /\ ~ x == float_0_8)
  /\ (x > float_0_9 <-> x > 0.9 /\ ~ x == float_0_9)
  /\ (x > float_0_08 <-> x > 0.08 /\ ~ x == float_0_08)
  /\ (x < float_0_6 <-> x < 0.6 /\ ~ x == float_0_6).
Proof.
  intros Hfloat.
  assert (Hhalf : (x > float_0_6 <-> x > 0.6)
                  /\ (x > float_0_7 <-> x > 0.7)
                  /\ (x > float_0_85 <-> x > 0.85)
                  /\ (x > float_0_8 <-> x > 0.8 /\ ~ x == float_0_8)
                  /\ (x > float_0_9 <-> x > 0.9 /\ ~ x == float_0_9)
                  /\ (x < float_0_6 <-> x < 0.6 /\ ~ x == float_0_6)).
  { destruct (decide (1 # 2 <= x)) as [Hlarge | Hsmall].
    - destruct (float_grid_53 x Hfloat Hlarge) as (k & Hx). on_the_grid Hx.
    - float_literals. repeat split; intros; destruct_and?; lra. }
  assert (Heighth : x > float_0_15 <-> x > 0.15).
  { destruct (decide (1 # 8 <= x)) as [Hlarge | Hsmall].
    - destruct (float_grid_55 x Hfloat Hlarge) as (k & Hx). on_the_grid Hx.
    - float_literals. split; intros; lra. }
  assert (Hsixteenth : x > float_0_08 <-> x > 0.08 /\ ~ x == float_0_08).
  { destruct (decide (1 # 16 <= x)) as [Hlarge | Hsmall].
    - destruct (float_grid_56 x Hfloat Hlarge) as (k & Hx). on_the_grid Hx.
    - float_literals. repeat split; intros; destruct_and?; lra. }
  tauto.
Qed.

(** No float32 lies from the float 0.6 to the decimal 0.6. *)
Lemma float32_misses_float_0_6 (x : Q) :
  is_float 24 x -> ~ (float_0_6 <= x <= 0.6).
Proof.
  intros Hfloat [Hlow Hhigh].
  destruct (float_grid_24 x Hfloat) as (k & Hx); [float_literals; lra |].
  rewrite Hx in Hlow, Hhigh. float_literals.
  unfold Qle in Hlow, Hhigh. cbn in Hlow, Hhigh. lia.
Qed.

End Floats.

(** ** The cleanliness score *)

Section DirtScore.

Import Spec.

#[local] Ltac split_thresholds :=
  repeat case_decide; try lra.

(** The accumulation of the source is the sum of the six contributions. *)
Lemma dirt_score_is_sum (m : ImageMetrics) :
  ExpertAnalyzer.dirt_score m == six_contributions m.
Proof.
  unfold ExpertAnalyzer.dirt_score, six_contributions,
    color_diversity_points, contrast_points, saturation_points,
    brown_ratio_points, edge_intensity_points, brightness_points.
  cbv zeta.
  split_thresholds.
Qed.

(** The two source files carry the same scoring statements. *)
Lemma dirt_score_same_in_both_files (m : ImageMetrics) :
  AnalyzeCarImage.dirt_score m = ExpertAnalyzer.dirt_score m.
Proof. reflexivity. Qed.

(** Range of each contribution. *)
Lemma color_diversity_points_range x : 0 <= color_diversity_points x <= 2.
Proof. unfold color_diversity_points. split_thresholds. Qed.

Lemma contrast_points_range x : 0 <= contrast_points x <= 2.
Proof. unfold contrast_points. split_thresholds. Qed.

Lemma saturation_points_range x : 0 <= saturation_points x <= 1.5.
Proof. unfold saturation_points. split_thresholds. Qed.

Lemma brown_ratio_points_range x : 0 <= brown_ratio_points x <= 2.
Proof. unfold brown_ratio_points. split_thresholds. Qed.

Lemma edge_intensity_points_range x : 0 <= edge_intensity_points x <= 1.5.
Proof. unfold edge_intensity_points. split_thresholds. Qed.

Lemma brightness_points_range x : 0 <= brightness_points x <= 1.
Proof. unfold brightness_points. split_thresholds. Qed.

Lemma six_contributions_range (m : ImageMetrics) :
  0 <= six_contributions m <= 10.
Proof.
  unfold six_contributions.
  pose proof (color_diversity_points_range (color_diversity m)).
  pose proof (contrast_points_range (contrast m)).
  pose proof (saturation_points_range (saturation m)).
  pose proof (brown_ratio_points_range (brown_ratio m)).
  pose proof (edge_intensity_points_range (edge_intensity m)).
  pose proof (brightness_points_range (brightness m)).
  lra.
Qed.

(** Both ends of the range are reached. *)
Example dirt_score_dirtiest : ExpertAnalyzer.dirt_score muddy == 10.
Proof. reflexivity. Qed.

Example dirt_score_cleanest : ExpertAnalyzer.dirt_score spotless == 0.
Proof. reflexivity. Qed.

(** Eight brown pixels in a hundred: the quotient of line 72 is the float
    0.08, which is not above the literal [0.08], and the brown ratio adds
    nothing to the score; the next float adds 1. *)
Example brown_ratio_of_8_percent :
  binary64 (8 / 100) == float_0_08
  /\ 0.08 < float_0_08
  /\ brown_ratio_points float_0_08 == 0
  /\ ExpertAnalyzer.dirt_score (mkImageMetrics 50 20 150 float_0_08 30 180) == 4
  /\ ExpertAnalyzer.dirt_score
       (mkImageMetrics 50 20 150 (float_0_08 + (1 # 72057594037927936)) 30 180) == 5.
Proof. repeat split; vm_compute; reflexivity. Qed.

(** Each contribution grows as its metric leaves the clean end: five of
    them are antitone, the brown-ratio one is monotone. *)
Lemma color_diversity_points_antitone x x' :
  x' <= x -> color_diversity_points x <= color_diversity_points x'.
Proof. unfold color_diversity_points. intros. split_thresholds. Qed.

Lemma contrast_points_antitone x x' :
  x' <= x -> contrast_points x <= contrast_points x'.
Proof. unfold contrast_points. intros. split_thresholds. Qed.

Lemma saturation_points_antitone x x' :
  x' <= x -> saturation_points x <= saturation_points x'.
Proof. unfold saturation_points. intros. split_thresholds. Qed.

Lemma brown_ratio_points_monotone x x' :
  x <= x' -> brown_ratio_points x <= brown_ratio_points x'.
Proof. unfold brown_ratio_points. intros. split_thresholds. Qed.

Lemma edge_intensity_points_antitone x x' :
  x' <= x -> edge_intensity_points x <= edge_intensity_points x'.
Proof. unfold edge_intensity_points. intros. split_thresholds. Qed.

Lemma brightness_points_antitone x x' :
  x' <= x -> brightness_points x <= brightness_points x'.
Proof. unfold brightness_points. intros. split_thresholds. Qed.

(** Metric by metric, the sum of the contributions is monotone. *)
Lemma six_contributions_monotone (m m' : ImageMetrics) :
  color_diversity m' <= color_diversity m ->
  contrast m' <= contrast m ->
  saturation m' <= saturation m ->
  brown_ratio m <= brown_ratio m' ->
  edge_intensity m' <= edge_intensity m ->
  brightness m' <= brightness m ->
  six_contributions m <= six_contributions m'.
Proof.
  intros Hcd Hc Hs Hb He Hbr. unfold six_contributions.
  apply color_diversity_points_antitone in Hcd.
  apply contrast_points_antitone in Hc.
  apply saturation_points_antitone in Hs.
  apply brown_ratio_points_monotone in Hb.
  apply edge_intensity_points_antitone in He.
  apply brightness_points_antitone in Hbr.
  lra.
Qed.

(** C5.  For every tuple of the six metrics the dirt score, in both source
    files, is the sum of the six additive contributions of the
    specification (color diversity 2/1, contrast 2/1, saturation 1.5/0.5,
    brown ratio 2/1, edge intensity 1.5/0.5, brightness 1/0.5), and it lies
    between 0 and 10.  The thresholds 0.15 and 0.08 of the brown ratio are
    the floats [float_0_15] and [float_0_08] that the source compares
    with. *)
Theorem dirt_score_six_contributions (m : ImageMetrics) :
  ExpertAnalyzer.dirt_score m == six_contributions m
  /\ AnalyzeCarImage.dirt_score m == six_contributions m
  /\ 0 <= ExpertAnalyzer.dirt_score m <= 10
  /\ 0 <= AnalyzeCarImage.dirt_score m <= 10.
Proof.
  change (AnalyzeCarImage.dirt_score m) with (ExpertAnalyzer.dirt_score m).
  pose proof (dirt_score_is_sum m) as Hsum.
  pose proof (six_contributions_range m) as Hrange.
  rewrite Hsum. repeat split; try reflexivity; apply Hrange.
Qed.

(** C9.  Moving any single one of the six metrics further from its clean
    end, the other five held fixed, never lowers the dirt score; lowering
    the contrast from [c1] to [c2 <= c1] is the constructor
    [lower_contrast]. *)
Theorem dirt_score_monotone (m m' : ImageMetrics) :
  dirtier_in_one m m' ->
  ExpertAnalyzer.dirt_score m <= ExpertAnalyzer.dirt_score m'.
Proof.
  intros Hstep. rewrite !dirt_score_is_sum.
  apply six_contributions_monotone;
    inversion Hstep; subst; simpl; lra.
Qed.

(** Lowering the contrast from 50 to 20 raises the score from 0 to 2. *)
Lemma dirt_score_monotone_witness :
  dirtier_in_one (mkImageMetrics 150 50 150 0.02 30 180)
                 (mkImageMetrics 150 20 150 0.02 30 180)
  /\ ExpertAnalyzer.dirt_score (mkImageMetrics 150 50 150 0.02 30 180)
     <= ExpertAnalyzer.dirt_score (mkImageMetrics 150 20 150 0.02 30 180).
Proof.
  assert (Hstep : dirtier_in_one (mkImageMetrics 150 50 150 0.02 30 180)
                                 (mkImageMetrics 150 20 150 0.02 30 180)).
  { apply lower_contrast. vm_compute. discriminate. }
  split; [exact Hstep |].
  apply (dirt_score_monotone _ _ Hstep).
Defined.

End DirtScore.

(** ** The cleanliness label *)

Section DirtLabel.

(** Both files pick the label by the same cascade. *)
Lemma dirt_label_same_in_both_files (score : Q) :
  (AnalyzeCarImage.dirt_status score).1.1 = (ExpertAnalyzer.dirt_status score).1.
Proof.
  unfold AnalyzeCarImage.dirt_status, ExpertAnalyzer.dirt_status.
  repeat case_decide; reflexivity.
Qed.

Lemma dirt_labels_distinct :
  NoDup [very_dirty; dirty; slightly_dirty; fairly_clean; very_clean].
Proof. compute_done. Qed.

(** The label is determined by the bucket of the score. *)
Lemma dirt_label_buckets (score : Q) :
  let label := (ExpertAnalyzer.dirt_status score).1 in
  (label = very_dirty <-> 6 <= score)
  /\ (label = dirty <-> 4 <= score < 6)
  /\ (label = slightly_dirty <-> 2 <= score < 4)
  /\ (label = fairly_clean <-> 1 <= score < 2)
  /\ (label = very_clean <-> score < 1).
Proof.
  unfold ExpertAnalyzer.dirt_status, very_dirty, dirty, slightly_dirty,
    fairly_clean, very_clean.
  repeat case_decide; simpl;
    repeat split; intros; try discriminate; try reflexivity; lra.
Qed.

(** C4.  The dirt label is a total function of the score with closed lower
    bounds: [score >= 6] is very_dirty, [4 <= score < 6] dirty,
    [2 <= score < 4] slightly_dirty, [1 <= score < 2] fairly_clean and
    [score < 1] very_clean; the five labels are distinct, so the buckets
    neither overlap nor leave a gap; the boundary scores 1, 2, 4 and 6 fall
    in the higher bucket; both source files agree. *)
Theorem dirt_label_closed_lower_bounds :
  (forall score : Q,
     let label := (ExpertAnalyzer.dirt_status score).1 in
     (label = very_dirty <-> 6 <= score)
     /\ (label = dirty <-> 4 <= score < 6)
     /\ (label = slightly_dirty <-> 2 <= score < 4)
     /\ (label = fairly_clean <-> 1 <= score < 2)
     /\ (label = very_clean <-> score < 1))
  /\ (forall score : Q,
        (AnalyzeCarImage.dirt_status score).1.1
        = (ExpertAnalyzer.dirt_status score).1)
  /\ NoDup [very_dirty; dirty; slightly_dirty; fairly_clean; very_clean]
  /\ (ExpertAnalyzer.dirt_status 1).1 = fairly_clean
  /\ (ExpertAnalyzer.dirt_status 2).1 = slightly_dirty
  /\ (ExpertAnalyzer.dirt_status 4.0).1 = dirty
  /\ (ExpertAnalyzer.dirt_status 6).1 = very_dirty.
Proof.
  split; [exact dirt_label_buckets |].
  split; [exact dirt_label_same_in_both_files |].
  split; [exact dirt_labels_distinct |].
  repeat split.
Qed.

(** The label returned by [analyze_dirt_level] is the bucket of the score
    it returns. *)
Lemma analyze_dirt_level_label (m : ImageMetrics) :
  (ExpertAnalyzer.analyze_dirt_level m).1.1.1
  = (ExpertAnalyzer.dirt_status (ExpertAnalyzer.analyze_dirt_level m).1.2).1.
Proof.
  unfold ExpertAnalyzer.analyze_dirt_level.
  destruct (ExpertAnalyzer.dirt_status (ExpertAnalyzer.dirt_score m)) as [status emoji] eqn:E.
  simpl. rewrite E. reflexivity.
Qed.

End DirtLabel.

(** ** The decision cascade *)

Section Decision.

Import Spec ExpertAnalyzer.

(** The branch taken for [major_damage], for any confidence and any
    probability. *)
Lemma major_damage_branches (confidence P_major : Q) :
  let v := verdict (determine_repairability "major_damage" confidence P_major) in
  (confidence > float_0_8 /\ P_major > 75.0 ->
     v = Returned ("taxi_banned", "safety_violation"))
  /\ (~ (confidence > float_0_8 /\ P_major > 75.0) ->
      confidence > float_0_6 \/ P_major > 50.0 ->
      v = Returned ("repair_required", "mandatory_repair"))
  /\ (~ (confidence > float_0_8 /\ P_major > 75.0) ->
      ~ (confidence > float_0_6 \/ P_major > 50.0) ->
      P_major > 25.0 ->
      v = Returned ("conditional_taxi", "restricted_operation"))
  /\ (~ (confidence > float_0_8 /\ P_major > 75.0) ->
      ~ (confidence > float_0_6 \/ P_major > 50.0) ->
      ~ P_major > 25.0 ->
      v = Returned ("conditional_taxi", "cosmetic_repair")).
Proof.
  unfold determine_repairability. cbv zeta.
  case_decide; [| done].
  repeat case_decide; repeat split; intros; first [reflexivity | tauto].
Qed.

(** C1.  For the class major_damage, a confidence in (0,1] and
    [P_major] in [0,100], the decision is the first matching line of:
    confidence > 0.8 and P_major > 75 gives taxi_banned/safety_violation;
    confidence > 0.6 or P_major > 50 gives repair_required/mandatory_repair;
    P_major > 25 gives conditional_taxi/restricted_operation; otherwise
    conditional_taxi/cosmetic_repair.  The thresholds 0.8 and 0.6 are the
    floats [float_0_8] and [float_0_6] that the source compares with. *)
Theorem major_damage_cascade (confidence P_major : Q) :
  0 < confidence <= 1 ->
  0 <= P_major <= 100 ->
  let v := verdict (determine_repairability "major_damage" confidence P_major) in
  (confidence > float_0_8 /\ P_major > 75.0 ->
     v = Returned ("taxi_banned", "safety_violation"))
  /\ (~ (confidence > float_0_8 /\ P_major > 75.0) ->
      confidence > float_0_6 \/ P_major > 50.0 ->
      v = Returned ("repair_required", "mandatory_repair"))
  /\ (~ (confidence > float_0_8 /\ P_major > 75.0) ->
      ~ (confidence > float_0_6 \/ P_major > 50.0) ->
      P_major > 25.0 ->
      v = Returned ("conditional_taxi", "restricted_operation"))
  /\ (~ (confidence > float_0_8 /\ P_major > 75.0) ->
      ~ (confidence > float_0_6 \/ P_major > 50.0) ->
      ~ P_major > 25.0 ->
      v = Returned ("conditional_taxi", "cosmetic_repair")).
Proof. intros _ _. apply major_damage_branches. Qed.

Lemma major_damage_cascade_witness :
  0 < 0.85 <= 1
  /\ 0 <= 80.0 <= 100
  /\ verdict (determine_repairability "major_damage" 0.85 80.0)
     = Returned ("taxi_banned", "safety_violation").
Proof.
  assert (Hc : 0 < 0.85 <= 1) by lra.
  assert (Hp : 0 <= 80.0 <= 100) by lra.
  split; [exact Hc |]. split; [exact Hp |].
  apply (major_damage_cascade 0.85 80.0 Hc Hp). float_literals. lra.
Defined.

(** The float 0.8 lies above the decimal 0.8, and a confidence equal to
    it is not above the threshold of the ban. *)
Example major_damage_at_the_float_0_8 :
  0.8 < float_0_8
  /\ verdict (determine_repairability "major_damage" float_0_8 80.0)
     = Returned ("repair_required", "mandatory_repair").
Proof. split; reflexivity. Qed.

(** The literal scenarios of the specification for major_damage. *)
Example major_damage_confidence_alone :
  verdict (determine_repairability "major_damage" 0.65 40.0)
  = Returned ("repair_required", "mandatory_repair").
Proof. reflexivity. Qed.

Example major_damage_restricted :
  verdict (determine_repairability "major_damage" 0.5 30.0)
  = Returned ("conditional_taxi", "restricted_operation").
Proof. reflexivity. Qed.

Example major_damage_cosmetic :
  verdict (determine_repairability "major_damage" 0.5 25.0)
  = Returned ("conditional_taxi", "cosmetic_repair").
Proof. reflexivity. Qed.

(** The branch taken for [minor_damage], for any confidence and any
    probability. *)
Lemma minor_damage_branches (confidence P_major : Q) :
  let v := verdict (determine_repairability "minor_damage" confidence P_major) in
  (confidence > float_0_6 /\ 100 - P_major > 40.0 ->
     v = Returned ("conditional_taxi", "image_improvement"))
  /\ (~ (confidence > float_0_6 /\ 100 - P_major > 40.0) ->
      v = Returned ("taxi_ready", "minor_maintenance")).
Proof.
  unfold determine_repairability. cbv zeta.
  case_decide; [done |]. case_decide; [| done].
  case_decide; split; intros; first [reflexivity | tauto].
Qed.

(** C3.  For the class minor_damage, with [minor_severity = 100 - P_major]:
    confidence > 0.6 (the float [float_0_6]) and minor_severity > 40 gives
    conditional_taxi/image_improvement, anything else
    taxi_ready/minor_maintenance; for the class no_damage the decision is
    taxi_ready/premium_ready whatever the confidence and the
    probability. *)
Theorem minor_and_no_damage_decisions (confidence P_major : Q) :
  let minor_severity := 100 - P_major in
  let v := verdict (determine_repairability "minor_damage" confidence P_major) in
  (confidence > float_0_6 /\ minor_severity > 40.0 ->
     v = Returned ("conditional_taxi", "image_improvement"))
  /\ (~ (confidence > float_0_6 /\ minor_severity > 40.0) ->
      v = Returned ("taxi_ready", "minor_maintenance"))
  /\ verdict (determine_repairability "no_damage" confidence P_major)
     = Returned ("taxi_ready", "premium_ready").
Proof.
  unfold determine_repairability. cbv zeta.
  repeat case_decide; try done;
    repeat split; intros; first [reflexivity | tauto].
Qed.

(** The literal scenarios of the specification for minor_damage and
    no_damage. *)
Example minor_damage_image_improvement :
  verdict (determine_repairability "minor_damage" 0.7 55.0)
  = Returned ("conditional_taxi", "image_improvement").
Proof. reflexivity. Qed.

Example minor_damage_confidence_gate_fails :
  verdict (determine_repairability "minor_damage" 0.5 90.0)
  = Returned ("taxi_ready", "minor_maintenance").
Proof. reflexivity. Qed.

Example no_damage_premium :
  verdict (determine_repairability "no_damage" 0.95 3.0)
  = Returned ("taxi_ready", "premium_ready").
Proof. reflexivity. Qed.

(** The final [else] does not look at its arguments. *)
Lemma final_else_branch (predicted_class : string) (confidence P_major : Q) :
  predicted_class <> "major_damage" ->
  predicted_class <> "minor_damage" ->
  determine_repairability predicted_class confidence P_major
  = determine_repairability "no_damage" 0 0.
Proof.
  intros Hmajor Hminor. unfold determine_repairability. cbv zeta.
  do 2 (case_decide; [done |]). reflexivity.
Qed.

(** C10.  A class string that is neither 'major_damage' nor 'minor_damage',
    documented or not, reaches the final [else]: the call returns
    taxi_ready/premium_ready, raises nothing, and its result is the one of
    no_damage whatever the confidence and the probability. *)
Theorem other_class_is_premium_ready
    (predicted_class : string) (confidence P_major : Q) :
  predicted_class <> "major_damage" ->
  predicted_class <> "minor_damage" ->
  verdict (determine_repairability predicted_class confidence P_major)
  = Returned ("taxi_ready", "premium_ready")
  /\ determine_repairability predicted_class confidence P_major
     = determine_repairability "no_damage" 0 0.
Proof.
  intros Hmajor Hminor.
  rewrite (final_else_branch _ _ _ Hmajor Hminor). split; reflexivity.
Qed.

Lemma other_class_is_premium_ready_witness :
  "severe_damage" <> "major_damage"
  /\ "severe_damage" <> "minor_damage"
  /\ verdict (determine_repairability "severe_damage" 0.3 99.0)
     = Returned ("taxi_ready", "premium_ready").
Proof.
  assert (H1 : "severe_damage" <> "major_damage") by discriminate.
  assert (H2 : "severe_damage" <> "minor_damage") by discriminate.
  split; [exact H1 |]. split; [exact H2 |].
  apply (other_class_is_premium_ready "severe_damage" 0.3 99.0 H1 H2).
Defined.

(** *** Input validation *)

(** The claim C2 as the specification states it fails on the code: an
    unknown class label breaks the contract of a prediction for every
    tolerance, and the call returns a verdict for it. *)
Lemma unknown_class_is_not_rejected :
  (forall eps, ~ prediction_contract eps "severe_damage" 0.9 [0.05; 0.05; 0.9])
  /\ determine_repairability "severe_damage" 0.9 (0.9 * 100)
     <> Raised InvalidPredictionError
  /\ verdict (determine_repairability "severe_damage" 0.9 (0.9 * 100))
     = Returned ("taxi_ready", "premium_ready").
Proof.
  repeat split.
  - intros eps [Hclass _]. destruct Hclass as [H | [H | H]]; discriminate.
  - discriminate.
Qed.

(** A confidence above 1 goes through the comparisons like any other. *)
Example confidence_out_of_range_is_not_rejected :
  verdict (determine_repairability "major_damage" 1.5 90.0)
  = Returned ("taxi_banned", "safety_violation").
Proof. reflexivity. Qed.

(** Every path of the function ends in a [return]. *)
Lemma determine_repairability_returns
    (predicted_class : string) (confidence P_major : Q) :
  exists status lines economic_tag,
    determine_repairability predicted_class confidence P_major
    = Returned (status, lines, economic_tag)
    /\ (status, economic_tag) ∈ verdicts.
Proof.
  unfold determine_repairability. cbv zeta.
  repeat case_decide; do 3 eexists; (split; [reflexivity |]);
    compute_done.
Qed.

(** C2, amended.  The decision function validates nothing: for every class
    label, confidence and probability, inside the contract of a prediction
    or not, it returns one of the seven verdicts and raises no error; a
    label other than 'major_damage' and 'minor_damage' falls to the final
    [else] and gets taxi_ready/premium_ready, the result of no_damage; and
    the confidence and the probability, whatever their range, go through
    the comparisons of the two cascades as they are. *)
Theorem determine_repairability_total
    (predicted_class : string) (confidence P_major : Q) :
  let r := determine_repairability predicted_class confidence P_major in
  (exists status lines economic_tag,
     r = Returned (status, lines, economic_tag)
     /\ (status, economic_tag) ∈ verdicts)
  /\ (forall e : exn, r <> Raised e)
  /\ (predicted_class <> "major_damage" ->
      predicted_class <> "minor_damage" ->
      verdict r = Returned ("taxi_ready", "premium_ready")
      /\ r = determine_repairability "no_damage" confidence P_major)
  /\ (predicted_class = "major_damage" ->
      (confidence > float_0_8 /\ P_major > 75.0 ->
         verdict r = Returned ("taxi_banned", "safety_violation"))
      /\ (~ (confidence > float_0_8 /\ P_major > 75.0) ->
          confidence > float_0_6 \/ P_major > 50.0 ->
          verdict r = Returned ("repair_required", "mandatory_repair"))
      /\ (~ (confidence > float_0_8 /\ P_major > 75.0) ->
          ~ (confidence > float_0_6 \/ P_major > 50.0) ->
          P_major > 25.0 ->
          verdict r = Returned ("conditional_taxi", "restricted_operation"))
      /\ (~ (confidence > float_0_8 /\ P_major > 75.0) ->
          ~ (confidence > float_0_6 \/ P_major > 50.0) ->
          ~ P_major > 25.0 ->
          verdict r = Returned ("conditional_taxi", "cosmetic_repair")))
  /\ (predicted_class = "minor_damage" ->
      (confidence > float_0_6 /\ 100 - P_major > 40.0 ->
         verdict r = Returned ("conditional_taxi", "image_improvement"))
      /\ (~ (confidence > float_0_6 /\ 100 - P_major > 40.0) ->
          verdict r = Returned ("taxi_ready", "minor_maintenance"))).
Proof.
  cbv zeta.
  destruct (determine_repairability_returns predicted_class confidence P_major)
    as (status & lines & economic_tag & Hreturn & Hverdict).
  split; [eauto |]. split; [intros e; rewrite Hreturn; discriminate |].
  split; [| split].
  - intros Hmajor Hminor.
    rewrite (final_else_branch _ confidence P_major Hmajor Hminor).
    split; [reflexivity |].
    symmetry. apply final_else_branch; discriminate.
  - intros ->. apply major_damage_branches.
  - intros ->. apply minor_damage_branches.
Qed.

(** A confidence of 1.5 and a probability of 120 percent are treated as a
    confidence above 0.8 and a probability above 75; a negative confidence
    as a confidence that is not above 0.6. *)
Example out_of_range_prediction_is_compared :
  verdict (determine_repairability "major_damage" 1.5 120.0)
  = Returned ("taxi_banned", "safety_violation")
  /\ verdict (determine_repairability "major_damage" (-1) 30.0)
     = Returned ("conditional_taxi", "restricted_operation")
  /\ verdict (determine_repairability "minor_damage" (-1) 30.0)
     = Returned ("taxi_ready", "minor_maintenance").
Proof. repeat split. Qed.

End Decision.

(** ** Numbers in the rationale *)

Section Rationale.

Import Spec ExpertAnalyzer.

Lemma prefix_app (s rest : string) : String.prefix s (s +:+ rest) = true.
Proof.
  induction s as [| c s IH].
  - destruct rest; reflexivity.
  - change (String c s +:+ rest) with (String c (s +:+ rest)). simpl.
    destruct (Ascii.ascii_dec c c); [exact IH | contradiction].
Qed.

Lemma str_in_unfold (needle haystack : string) :
  str_in needle haystack
  = if String.prefix needle haystack then true
    else match haystack with
         | EmptyString => false
         | String _ rest => str_in needle rest
         end.
Proof. destruct haystack; reflexivity. Qed.

(** A string is found in whatever is written around it. *)
Lemma str_in_app (before s after : string) :
  str_in s (before +:+ s +:+ after) = true.
Proof.
  induction before as [| c before IH].
  - change ("" +:+ s +:+ after) with (s +:+ after).
    rewrite str_in_unfold, prefix_app. reflexivity.
  - change (String c before +:+ s +:+ after)
      with (String c (before +:+ s +:+ after)).
    rewrite str_in_unfold. rewrite IH.
    destruct (String.prefix s _); reflexivity.
Qed.





End Rationale.

(** ** The narrative selected by the cleanliness label *)

Section Narrative.

Lemma append_assoc (a b c : string) : (a +:+ b) +:+ c = a +:+ b +:+ c.
Proof.
  induction a as [| x a IH]; [reflexivity |].
  change (String x ((a +:+ b) +:+ c) = String x (a +:+ b +:+ c)).
  rewrite IH. reflexivity.
Qed.

Lemma prefix_inv (s haystack : string) :
  String.prefix s haystack = true -> exists rest, haystack = s +:+ rest.
Proof.
  revert haystack. induction s as [| c s IH]; intros haystack H.
  - exists haystack. reflexivity.
  - destruct haystack as [| d haystack]; [discriminate |].
    simpl in H. destruct (Ascii.ascii_dec c d) as [-> |]; [| discriminate].
    destruct (IH _ H) as [rest ->]. exists rest. reflexivity.
Qed.

(** [str_in] is the substring test. *)
Lemma str_in_inv (needle haystack : string) :
  str_in needle haystack = true ->
  exists before after, haystack = before +:+ needle +:+ after.
Proof.
  induction haystack as [| c haystack IH]; rewrite str_in_unfold;
    destruct (String.prefix needle _) eqn:Hprefix; intros H.
  - apply prefix_inv in Hprefix as [rest ->]. exists "", rest. reflexivity.
  - discriminate.
  - apply prefix_inv in Hprefix as [rest ->]. exists "", rest. reflexivity.
  - destruct (IH H) as (before & after & ->).
    exists (String c before), after. reflexivity.
Qed.

Lemma str_in_trans (a b s : string) :
  str_in a b = true -> str_in b s = true -> str_in a s = true.
Proof.
  intros Hab Hbs.
  apply str_in_inv in Hab as (x & y & ->).
  apply str_in_inv in Hbs as (u & v & ->).
  replace (u +:+ (x +:+ a +:+ y) +:+ v) with ((u +:+ x) +:+ a +:+ (y +:+ v)).
  - apply str_in_app.
  - rewrite !append_assoc. reflexivity.
Qed.

(** In [generate_expert_assessment] the label is compared with [==]: the
    five labels select five different narratives. *)
Lemma dirt_lines_distinguish_labels (score : Q) (label label' : string) :
  label ∈ [very_dirty; dirty; slightly_dirty; fairly_clean; very_clean] ->
  label' ∈ [very_dirty; dirty; slightly_dirty; fairly_clean; very_clean] ->
  label <> label' ->
  ExpertAnalyzer.dirt_lines label score <> ExpertAnalyzer.dirt_lines label' score.
Proof.
  intros Hl Hl' Hne Heq.
  apply (f_equal (fun lines => lines !! 3%nat)) in Heq.
  repeat (apply elem_of_cons in Hl as [-> | Hl]); [.. | by apply elem_of_nil in Hl];
    repeat (apply elem_of_cons in Hl' as [-> | Hl']);
    try (by apply elem_of_nil in Hl'); try (by apply Hne);
    vm_compute in Heq; discriminate.
Qed.

(** In [get_human_comment] the third test can only succeed when the second
    one already has: its branch is never taken. *)
Lemma slightly_dirty_branch_is_dead (dirt_status : string) :
  str_in "слегка грязная" dirt_status = true ->
  str_in "грязная" dirt_status = true.
Proof. apply str_in_trans. reflexivity. Qed.

Lemma slightly_dirty_comment_never_selected (dirt_status : string) :
  AnalyzeCarImage.dirt_comments dirt_status
  <> ["Небольшая пыль - в целом состояние приемлемое"].
Proof.
  unfold AnalyzeCarImage.dirt_comments.
  destruct (str_in "очень грязная" dirt_status); [discriminate |].
  destruct (str_in "грязная" dirt_status) eqn:Hdirty; [discriminate |].
  destruct (str_in "слегка грязная" dirt_status) eqn:Hslightly.
  - apply slightly_dirty_branch_is_dead in Hslightly. congruence.
  - destruct (str_in "достаточно чистая" dirt_status); discriminate.
Qed.

(** C8 (the code departs from it).  [get_human_comment] tests the label
    with [in]: the label slightly_dirty contains the label dirty, so both
    labels select the narrative of dirty, for every class and
    confidence. *)
Theorem slightly_dirty_selects_dirty_narrative :
  slightly_dirty <> dirty
  /\ AnalyzeCarImage.dirt_comments slightly_dirty
     = AnalyzeCarImage.dirt_comments dirty
  /\ AnalyzeCarImage.dirt_comments slightly_dirty
     = [ "Автомобиль нуждается в хорошей мойке";
         "Грязь затрудняет точную оценку состояния" ]
  /\ forall predicted_class confidence,
       AnalyzeCarImage.get_human_comment predicted_class confidence slightly_dirty
       = AnalyzeCarImage.get_human_comment predicted_class confidence dirty.
Proof.
  split; [discriminate |]. split; [reflexivity |]. split; [reflexivity |].
  intros predicted_class confidence.
  unfold AnalyzeCarImage.get_human_comment.
  f_equal.
Qed.

End Narrative.

(** ** The cleanliness layer of the report *)

Section Cleanliness.

Import Spec ExpertAnalyzer.

Lemma bind_returned {A B : Type} (a : A) (k : A -> outcome B) :
  Returned a ≫= k = k a.
Proof. reflexivity. Qed.

(** The loop over [repairability_msgs] appends them in order. *)
Lemma append_each (assessment msgs : list string) :
  foldl (fun assessment msg => assessment ++ [msg]) assessment msgs
  = assessment ++ msgs.
Proof.
  revert assessment. induction msgs as [| msg msgs IH]; intros assessment; simpl.
  - rewrite app_nil_r. reflexivity.
  - rewrite IH, <- app_assoc. reflexivity.
Qed.

Lemma technical_lines_returns (dirt_metrics : gmap string Q) :
  dirt_metrics_complete dirt_metrics ->
  exists lines,
    technical_lines dirt_metrics = Returned lines
    /\ Forall (fun line => advisory_mark line = false) lines.
Proof.
  unfold dirt_metrics_complete. rewrite !Forall_cons.
  intros ([cd Hcd] & [c Hc] & [sa Hsa] & [e He] & [br Hbr] & _).
  unfold technical_lines, getitem.
  rewrite Hcd, Hc, Hsa, He, Hbr. simpl.
  eexists. split; [reflexivity |].
  repeat constructor.
Qed.

(** A missing key is an error of the report, not a verdict. *)
Example technical_lines_key_error :
  technical_lines ∅ = Raised KeyError.
Proof. reflexivity. Qed.

Lemma rationale_has_no_advisory_mark
    (predicted_class : string) (confidence P_major : Q)
    (status economic_tag : string) (lines : list string) :
  determine_repairability predicted_class confidence P_major
  = Returned (status, lines, economic_tag) ->
  Forall (fun line => advisory_mark line = false) lines.
Proof.
  unfold determine_repairability. cbv zeta.
  repeat case_decide; intros [= <- <- <-]; repeat constructor.
Qed.

Lemma damage_lines_have_no_advisory_mark
    (predicted_class : string) (confidence p0 p1 p2 : Q) :
  Forall (fun line => advisory_mark line = false)
    (damage_lines predicted_class confidence p0 p1 p2).
Proof. unfold damage_lines. repeat case_decide; repeat constructor. Qed.

Lemma dirt_lines_have_no_advisory_mark (dirt_status : string) (dirt_score : Q) :
  Forall (fun line => advisory_mark line = false)
    (dirt_lines dirt_status dirt_score).
Proof.
  unfold dirt_lines. apply Forall_app. split; [repeat constructor |].
  repeat case_decide; repeat constructor.
Qed.

Lemma conclusion_lines_have_no_advisory_mark (status economic_tag : string) :
  Forall (fun line => advisory_mark line = false)
    (conclusion_lines status economic_tag).
Proof.
  unfold conclusion_lines. apply Forall_app. split; [repeat constructor |].
  repeat case_decide; repeat constructor.
Qed.

(** With three probabilities and a complete dict, the body runs to its end;
    the report is the concatenation of its parts. *)
Lemma generate_expert_assessment_body_returns
    (predicted_class : string) (confidence p0 p1 p2 : Q)
    (class_names : list string)
    (dirt_status : string) (dirt_score : Q) (dirt_metrics : gmap string Q) :
  dirt_metrics_complete dirt_metrics ->
  exists status msgs economic_tag technical,
    determine_repairability predicted_class confidence (p2 * 100)
    = Returned (status, msgs, economic_tag)
    /\ technical_lines dirt_metrics = Returned technical
    /\ generate_expert_assessment_body predicted_class confidence [p0; p1; p2]
         class_names dirt_status dirt_score dirt_metrics
       = Returned
           (mkFrame
              (title_lines
               ++ damage_lines predicted_class confidence
                    (p0 * 100) (p1 * 100) (p2 * 100)
               ++ fitness_heading ++ msgs
               ++ dirt_lines dirt_status dirt_score
               ++ technical
               ++ conclusion_lines status economic_tag
               ++ cleanliness_lines dirt_score
               ++ legal_lines)
              (p0 * 100) (p1 * 100) (p2 * 100) status msgs economic_tag).
Proof.
  intros Hcomplete.
  destruct (determine_repairability_returns predicted_class confidence (p2 * 100))
    as (status & msgs & economic_tag & Hverdict & _).
  destruct (technical_lines_returns dirt_metrics Hcomplete)
    as (technical & Htechnical & _).
  exists status, msgs, economic_tag, technical.
  split; [exact Hverdict |]. split; [exact Htechnical |].
  unfold generate_expert_assessment_body.
  change (subscript [p0; p1; p2] 0) with (Returned p0).
  change (subscript [p0; p1; p2] 1) with (Returned p1).
  change (subscript [p0; p1; p2] 2) with (Returned p2).
  rewrite !bind_returned. cbv beta zeta.
  rewrite Hverdict, bind_returned. cbv beta iota.
  rewrite Htechnical, bind_returned.
  rewrite append_each, <- !app_assoc. reflexivity.
Qed.

(** The report validates nothing either: its only errors are those of the
    two subscripts. *)
Lemma generate_expert_assessment_errors
    (predicted_class : string) (confidence : Q) (probabilities : list Q)
    (class_names : list string)
    (dirt_status : string) (dirt_score : Q) (dirt_metrics : gmap string Q)
    (e : exn) :
  generate_expert_assessment predicted_class confidence probabilities
    class_names dirt_status dirt_score dirt_metrics = Raised e ->
  e = IndexError \/ e = KeyError.
Proof.
  unfold generate_expert_assessment, generate_expert_assessment_body, subscript.
  destruct (probabilities !! 0%nat) as [p0 |]; [| intros [= <-]; auto].
  destruct (probabilities !! 1%nat) as [p1 |]; [| intros [= <-]; auto].
  destruct (probabilities !! 2%nat) as [p2 |]; [| intros [= <-]; auto].
  rewrite !bind_returned. cbv beta zeta.
  destruct (determine_repairability_returns predicted_class confidence (p2 * 100))
    as (status & msgs & economic_tag & -> & _).
  rewrite bind_returned. cbv beta iota.
  unfold technical_lines, getitem.
  repeat match goal with
         | |- context [dirt_metrics !! ?key] =>
             destruct (dirt_metrics !! key); [| intros [= <-]; auto]
         end.
  discriminate.
Qed.

(** Three probabilities that do not sum to 1 and a confidence above 1 are
    reported on like any others. *)
Example invalid_probabilities_are_reported_on :
  exists lines,
    generate_expert_assessment "major_damage" 1.5 [0.9; 0.9; 0.9]
      ["no_damage"; "minor_damage"; "major_damage"]
      (analyze_dirt_level spotless).1.1.1
      (analyze_dirt_level spotless).1.2
      (analyze_dirt_level spotless).2 = Returned lines
    /\ "🚫 ИСКЛЮЧЕН ИЗ ТАКСОПАРКА НАВСЕГДА:" ∈ lines.
Proof. eexists. split; [vm_compute; reflexivity |]. compute_done. Qed.

(** Fewer than three probabilities is an error of the report. *)
Example generate_expert_assessment_index_error :
  generate_expert_assessment "no_damage" 0.9 [0.9; 0.1] [] very_clean 0 ∅
  = Raised IndexError.
Proof. reflexivity. Qed.

Lemma cleanliness_lines_cases (dirt_score : Q) :
  (dirt_score > 6.0 -> cleanliness_lines dirt_score = critical_cleanliness_block)
  /\ (~ dirt_score > 6.0 -> dirt_score > 4.0 ->
      cleanliness_lines dirt_score = below_standard_cleanliness_block)
  /\ (~ dirt_score > 4.0 -> cleanliness_lines dirt_score = []).
Proof.
  unfold cleanliness_lines.
  repeat case_decide; repeat split; intros; first [reflexivity | lra].
Qed.

Lemma unmarked_line_is_no_heading (line : string) (lines : list string) :
  Forall (fun line => advisory_mark line = false) lines ->
  advisory_mark line = true ->
  line ∉ lines.
Proof.
  intros Hlines Hmark Hin.
  rewrite Forall_forall in Hlines. apply Hlines in Hin. congruence.
Qed.

Lemma headings_of_the_blocks :
  advisory_mark critical_cleanliness_heading = true
  /\ advisory_mark below_standard_cleanliness_heading = true
  /\ critical_cleanliness_heading ∈ critical_cleanliness_block
  /\ below_standard_cleanliness_heading ∈ below_standard_cleanliness_block
  /\ (critical_cleanliness_heading ∉ below_standard_cleanliness_block)
  /\ (below_standard_cleanliness_heading ∉ critical_cleanliness_block)
  /\ (critical_cleanliness_heading ∉ legal_lines)
  /\ (below_standard_cleanliness_heading ∉ legal_lines).
Proof. repeat split; compute_done. Qed.

(** The parts of the report before the advisory carry no advisory
    heading. *)
Lemma report_has_no_advisory_mark
    (predicted_class : string) (confidence p0 p1 p2 : Q)
    (dirt_status : string) (dirt_score : Q)
    (status economic_tag : string) (msgs technical : list string) :
  Forall (fun line => advisory_mark line = false) msgs ->
  Forall (fun line => advisory_mark line = false) technical ->
  Forall (fun line => advisory_mark line = false)
    (title_lines
     ++ damage_lines predicted_class confidence p0 p1 p2
     ++ fitness_heading ++ msgs
     ++ dirt_lines dirt_status dirt_score
     ++ technical
     ++ conclusion_lines status economic_tag).
Proof.
  intros Hmsgs Htechnical.
  rewrite !Forall_app.
  split; [repeat constructor |].
  split; [apply damage_lines_have_no_advisory_mark |].
  split; [repeat constructor |].
  split; [exact Hmsgs |].
  split; [apply dirt_lines_have_no_advisory_mark |].
  split; [exact Htechnical |].
  apply conclusion_lines_have_no_advisory_mark.
Qed.

(** C6.  For a fixed prediction and any two dirt assessments the report is
    built in both cases, on the same status and economic tag, which are
    those of the decision function: the dirt input does not reach the
    verdict.  The cleanliness layer only adds lines to the report: after
    the part that holds no advisory heading comes the critical block
    exactly when the dirt score is above 6.0, the below-standard block
    exactly when it is above 4.0 and not above 6.0, and nothing
    otherwise. *)
Theorem dirt_is_advisory_only
    (predicted_class : string) (confidence p0 p1 p2 : Q)
    (class_names : list string)
    (dirt_status dirt_status' : string) (dirt_score dirt_score' : Q)
    (dirt_metrics dirt_metrics' : gmap string Q) :
  dirt_metrics_complete dirt_metrics ->
  dirt_metrics_complete dirt_metrics' ->
  exists f f' : frame,
    generate_expert_assessment_body predicted_class confidence [p0; p1; p2]
      class_names dirt_status dirt_score dirt_metrics = Returned f
    /\ generate_expert_assessment_body predicted_class confidence [p0; p1; p2]
         class_names dirt_status' dirt_score' dirt_metrics' = Returned f'
    /\ verdict (determine_repairability predicted_class confidence (p2 * 100))
       = Returned (repairability_status f, economic_status f)
    /\ repairability_status f = repairability_status f'
    /\ economic_status f = economic_status f'
    /\ (exists report,
          assessment f = report ++ cleanliness_lines dirt_score ++ legal_lines
          /\ (critical_cleanliness_heading ∉ report)
          /\ (below_standard_cleanliness_heading ∉ report))
    /\ (dirt_score > 6.0 ->
        cleanliness_lines dirt_score = critical_cleanliness_block)
    /\ (~ dirt_score > 6.0 -> dirt_score > 4.0 ->
        cleanliness_lines dirt_score = below_standard_cleanliness_block)
    /\ (~ dirt_score > 4.0 -> cleanliness_lines dirt_score = [])
    /\ (critical_cleanliness_heading ∈ assessment f <-> dirt_score > 6.0)
    /\ (below_standard_cleanliness_heading ∈ assessment f
        <-> dirt_score > 4.0 /\ ~ dirt_score > 6.0).
Proof.
  intros Hcomplete Hcomplete'.
  destruct (generate_expert_assessment_body_returns predicted_class confidence
              p0 p1 p2 class_names dirt_status dirt_score dirt_metrics Hcomplete)
    as (status & msgs & economic_tag & technical & Hverdict & Htechnical & Hbody).
  destruct (generate_expert_assessment_body_returns predicted_class confidence
              p0 p1 p2 class_names dirt_status' dirt_score' dirt_metrics' Hcomplete')
    as (status' & msgs' & economic_tag' & technical' & Hverdict' & _ & Hbody').
  rewrite Hverdict in Hverdict'. injection Hverdict' as <- <- <-.
  pose proof (rationale_has_no_advisory_mark _ _ _ _ _ _ Hverdict) as Hmsgs.
  destruct (technical_lines_returns dirt_metrics Hcomplete)
    as (technical0 & Htechnical0 & Hunmarked).
  rewrite Htechnical in Htechnical0. injection Htechnical0 as <-.
  pose proof (report_has_no_advisory_mark predicted_class confidence
                (p0 * 100) (p1 * 100) (p2 * 100) dirt_status dirt_score
                status economic_tag msgs technical Hmsgs Hunmarked) as Hreport.
  destruct headings_of_the_blocks
    as (Hmark & Hmark' & Hin & Hin' & Hout & Hout' & Hlegal & Hlegal').
  pose proof (unmarked_line_is_no_heading _ _ Hreport Hmark) as Hcritical.
  pose proof (unmarked_line_is_no_heading _ _ Hreport Hmark') as Hbelow.
  destruct (cleanliness_lines_cases dirt_score) as (Hhigh & Hmiddle & Hlow).
  eexists _, _. split; [exact Hbody |]. split; [exact Hbody' |].
  cbn [assessment repairability_status economic_status].
  split; [rewrite Hverdict; reflexivity |].
  split; [reflexivity |]. split; [reflexivity |].
  match goal with
  | H : Forall _ ?r |- _ => set (report := r) in *
  end.
  assert (Hshape :
    title_lines
    ++ damage_lines predicted_class confidence (p0 * 100) (p1 * 100) (p2 * 100)
    ++ fitness_heading ++ msgs ++ dirt_lines dirt_status dirt_score
    ++ technical ++ conclusion_lines status economic_tag
    ++ cleanliness_lines dirt_score ++ legal_lines
    = report ++ cleanliness_lines dirt_score ++ legal_lines).
  { unfold report. rewrite <- !app_assoc. reflexivity. }
  rewrite Hshape.
  split; [exists report; auto |].
  split; [exact Hhigh |]. split; [exact Hmiddle |]. split; [exact Hlow |].
  rewrite !elem_of_app.
  split; split.
  - intros [Hr | [Hadv | Hl]]; [done | | done].
    destruct (decide (dirt_score > 6.0)) as [| Hnot]; [assumption |].
    destruct (decide (dirt_score > 4.0)) as [H4 | H4].
    + rewrite (Hmiddle Hnot H4) in Hadv. done.
    + rewrite (Hlow H4) in Hadv. by apply elem_of_nil in Hadv.
  - intros H6. right; left. rewrite (Hhigh H6). exact Hin.
  - intros [Hr | [Hadv | Hl]]; [done | | done].
    destruct (decide (dirt_score > 6.0)) as [H6 | H6].
    + rewrite (Hhigh H6) in Hadv. done.
    + destruct (decide (dirt_score > 4.0)) as [H4 | H4]; [auto |].
      rewrite (Hlow H4) in Hadv. by apply elem_of_nil in Hadv.
  - intros [H4 H6]. right; left. rewrite (Hmiddle H6 H4). exact Hin'.
Qed.

(** The dict that [analyze_dirt_level] returns is complete. *)
Lemma analyze_dirt_level_metrics_complete (m : ImageMetrics) :
  dirt_metrics_complete (analyze_dirt_level m).2.
Proof.
  unfold analyze_dirt_level.
  destruct (ExpertAnalyzer.dirt_status (dirt_score m)) as [status emoji].
  cbn [snd]. repeat constructor; eexists; reflexivity.
Qed.

(** A spotless and a muddy car with the same prediction: same verdict. *)
Lemma dirt_is_advisory_only_witness :
  dirt_metrics_complete (analyze_dirt_level spotless).2
  /\ dirt_metrics_complete (analyze_dirt_level muddy).2
  /\ exists f f' : frame,
       generate_expert_assessment_body "major_damage" 0.85 [0.05; 0.1; 0.85]
         ["no_damage"; "minor_damage"; "major_damage"]
         (analyze_dirt_level spotless).1.1.1
         (analyze_dirt_level spotless).1.2
         (analyze_dirt_level spotless).2 = Returned f
       /\ generate_expert_assessment_body "major_damage" 0.85 [0.05; 0.1; 0.85]
            ["no_damage"; "minor_damage"; "major_damage"]
            (analyze_dirt_level muddy).1.1.1
            (analyze_dirt_level muddy).1.2
            (analyze_dirt_level muddy).2 = Returned f'
       /\ repairability_status f = repairability_status f'
       /\ economic_status f = economic_status f'.
Proof.
  assert (Hspotless : dirt_metrics_complete (analyze_dirt_level spotless).2).
  { vm_compute. repeat constructor; eexists; reflexivity. }
  assert (Hmuddy : dirt_metrics_complete (analyze_dirt_level muddy).2).
  { vm_compute. repeat constructor; eexists; reflexivity. }
  split; [exact Hspotless |]. split; [exact Hmuddy |].
  destruct (dirt_is_advisory_only "major_damage" 0.85 0.05 0.1 0.85
              ["no_damage"; "minor_damage"; "major_damage"]
              (analyze_dirt_level spotless).1.1.1
              (analyze_dirt_level muddy).1.1.1
              (analyze_dirt_level spotless).1.2
              (analyze_dirt_level muddy).1.2
              (analyze_dirt_level spotless).2
              (analyze_dirt_level muddy).2
              Hspotless Hmuddy)
    as (f & f' & Hf & Hf' & _ & Hstatus & Htag & _).
  exists f, f'. repeat split; assumption.
Defined.

(** The whole report of the muddy car, with the verdict of the prediction
    and the critical block of the score 10. *)
Example muddy_report_has_critical_block :
  exists lines,
    generate_expert_assessment "major_damage" 0.85 [0.05; 0.1; 0.85]
      ["no_damage"; "minor_damage"; "major_damage"]
      (analyze_dirt_level muddy).1.1.1
      (analyze_dirt_level muddy).1.2
      (analyze_dirt_level muddy).2 = Returned lines
    /\ critical_cleanliness_heading ∈ lines
    /\ "🚫 ИСКЛЮЧЕН ИЗ ТАКСОПАРКА НАВСЕГДА:" ∈ lines.
Proof. eexists. split; [vm_compute; reflexivity |]. split; compute_done. Qed.

End Cleanliness.

(** ** The prediction read off the row of probabilities *)

Section Prediction.

Import Spec.

(** The scan keeps the largest value seen so far and the first index where
    it occurs; [seen] is the part of the row already scanned. *)
Lemma first_max_scan (row seen : list Q) (best : Q) (best_index : nat) :
  seen !! best_index = Some best ->
  (forall x, x ∈ seen -> x <= best) ->
  (forall j y, (j < best_index)%nat -> seen !! j = Some y -> y < best) ->
  let result := first_max best best_index (length seen) row in
  (seen ++ row) !! result.2 = Some result.1
  /\ (forall x, x ∈ seen ++ row -> x <= result.1)
  /\ (forall j y, (j < result.2)%nat -> (seen ++ row) !! j = Some y -> y < result.1).
Proof.
  revert seen best best_index.
  induction row as [| x row IH]; intros seen best best_index Hbest Hmax Hfirst.
  - cbn [first_max]. rewrite app_nil_r. auto.
  - cbn [first_max].
    assert (Hbound : (best_index < length seen)%nat)
      by (eapply lookup_lt_Some; exact Hbest).
    replace (seen ++ x :: row) with ((seen ++ [x]) ++ row)
      by (rewrite <- app_assoc; reflexivity).
    replace (S (length seen)) with (length (seen ++ [x]))
      by (rewrite length_app; simpl; lia).
    destruct (decide (x > best)) as [Hgt | Hle].
    + apply IH.
      * rewrite lookup_app_r by lia. rewrite Nat.sub_diag. reflexivity.
      * intros y Hy. apply elem_of_app in Hy as [Hy | Hy].
        -- apply Hmax in Hy. lra.
        -- apply list_elem_of_singleton in Hy as ->. lra.
      * intros j y Hj Hy. rewrite lookup_app_l in Hy by exact Hj.
        apply list_elem_of_lookup_2 in Hy. apply Hmax in Hy. lra.
    + apply IH.
      * rewrite lookup_app_l by exact Hbound. exact Hbest.
      * intros y Hy. apply elem_of_app in Hy as [Hy | Hy].
        -- apply Hmax, Hy.
        -- apply list_elem_of_singleton in Hy as ->. lra.
      * intros j y Hj Hy. rewrite lookup_app_l in Hy by lia.
        eapply Hfirst; eassumption.
Qed.

(** On a row that is not empty [torch.max] returns a value of the row
    with its index; no value of the row is larger, and every value before
    that index is strictly smaller: ties go to the first index. *)
Theorem torch_max_first_largest (row : list Q) :
  row <> [] ->
  exists value index,
    torch_max row = Returned (value, index)
    /\ row !! index = Some value
    /\ (forall x, x ∈ row -> x <= value)
    /\ (forall j y, (j < index)%nat -> row !! j = Some y -> y < value).
Proof.
  destruct row as [| x row]; [done |]. intros _.
  pose proof (first_max_scan row [x] x 0) as Hscan.
  cbn [length app] in Hscan.
  destruct (first_max x 0 1 row) as [value index] eqn:Hresult.
  exists value, index. split; [cbn [torch_max]; rewrite Hresult; reflexivity |].
  apply Hscan.
  - reflexivity.
  - intros y Hy. apply list_elem_of_singleton in Hy as ->. lra.
  - intros j y Hj. lia.
Qed.

Lemma torch_max_first_largest_witness :
  [0.4; 0.4; 0.2] <> []
  /\ torch_max [0.4; 0.4; 0.2] = Returned (0.4, 0%nat).
Proof.
  assert (Hrow : [0.4; 0.4; 0.2] <> []) by discriminate.
  split; [exact Hrow |].
  destruct (torch_max_first_largest [0.4; 0.4; 0.2] Hrow)
    as (value & index & Hmax & _).
  rewrite Hmax. vm_compute in Hmax. injection Hmax as <- <-. reflexivity.
Defined.

Example torch_max_empty_row : torch_max [] = Raised IndexError.
Proof. reflexivity. Qed.

(** X1.  Whatever the length of the row, when [predict_damage] returns, it
    returns the row unchanged with the three class names; the confidence
    is the largest value of the row and stands at the index of the
    predicted class, before which every value is strictly smaller. *)
Theorem predict_damage_confidence
    (row : list Q) (predicted_class : string) (confidence : Q)
    (probs : list Q) (names : list string) :
  ExpertAnalyzer.predict_damage row
  = Returned (predicted_class, confidence, probs, names) ->
  probs = row /\ names = class_names
  /\ exists index,
       class_names !! index = Some predicted_class
       /\ row !! index = Some confidence
       /\ (forall x, x ∈ row -> x <= confidence)
       /\ (forall j y, (j < index)%nat -> row !! j = Some y -> y < confidence).
Proof.
  unfold ExpertAnalyzer.predict_damage. intros Hpredict.
  destruct row as [| x row]; [discriminate |].
  destruct (torch_max_first_largest (x :: row)) as (value & index & Hmax & Hspec);
    [discriminate |].
  rewrite Hmax in Hpredict. cbn [mbind outcome_bind] in Hpredict.
  unfold subscript in Hpredict.
  destruct (_ !! index) as [name |] eqn:Hname; [| discriminate].
  cbn [mbind outcome_bind] in Hpredict. simplify_eq.
  split; [reflexivity |]. split; [reflexivity |].
  exists index. split; [exact Hname | exact Hspec].
Qed.

Lemma predict_damage_confidence_witness :
  ExpertAnalyzer.predict_damage [0.4; 0.4; 0.2]
  = Returned ("no_damage", 0.4, [0.4; 0.4; 0.2], class_names)
  /\ exists index,
       class_names !! index = Some "no_damage"
       /\ [0.4; 0.4; 0.2] !! index = Some 0.4.
Proof.
  assert (Hpredict : ExpertAnalyzer.predict_damage [0.4; 0.4; 0.2]
                     = Returned ("no_damage", 0.4, [0.4; 0.4; 0.2], class_names))
    by reflexivity.
  split; [exact Hpredict |].
  destruct (predict_damage_confidence _ _ _ _ _ Hpredict)
    as (_ & _ & index & Hname & Hvalue & _).
  exists index. split; assumption.
Defined.

(** X2.  On a row of three probabilities [predict_damage] returns the row
    unchanged with the three class names, the largest probability as the
    confidence, and the class of that probability; a tie goes to the less
    severe class: no_damage when [p0] is not below the other two,
    minor_damage when [p1] is above [p0] and not below [p2], major_damage
    only when [p2] is strictly above both. *)
Theorem predict_damage_class (p0 p1 p2 : Q) :
  exists predicted_class confidence,
    ExpertAnalyzer.predict_damage [p0; p1; p2]
    = Returned (predicted_class, confidence, [p0; p1; p2], class_names)
    /\ known_class predicted_class
    /\ p0 <= confidence /\ p1 <= confidence /\ p2 <= confidence
    /\ (p0 >= p1 /\ p0 >= p2 ->
        predicted_class = "no_damage" /\ confidence = p0)
    /\ (p1 > p0 /\ p1 >= p2 ->
        predicted_class = "minor_damage" /\ confidence = p1)
    /\ (p2 > p0 /\ p2 > p1 ->
        predicted_class = "major_damage" /\ confidence = p2).
Proof.
  unfold ExpertAnalyzer.predict_damage, torch_max, known_class.
  cbn [first_max].
  repeat case_decide;
    (eexists _, _; split; [reflexivity |]);
    repeat split; intros; first [lra | reflexivity | tauto].
Qed.

(** The prediction of [analyze_car_image.py] is the same one. *)
Lemma predict_damage_same_in_both_files
    (m : ImageMetrics) (probabilities : list Q)
    (predicted_class : string) (confidence : Q)
    (probs : list Q) (names : list string) :
  ExpertAnalyzer.predict_damage probabilities
  = Returned (predicted_class, confidence, probs, names) ->
  exists dirt_emoji dirt_details,
    AnalyzeCarImage.predict_damage m probabilities
    = Returned (predicted_class, confidence, probs, names,
                (AnalyzeCarImage.analyze_dirt_level m).1.1, dirt_emoji,
                AnalyzeCarImage.get_human_comment predicted_class confidence
                  (AnalyzeCarImage.analyze_dirt_level m).1.1,
                dirt_details).
Proof.
  unfold ExpertAnalyzer.predict_damage, AnalyzeCarImage.predict_damage.
  destruct (AnalyzeCarImage.analyze_dirt_level m) as [[dirt_status dirt_emoji] dirt_details].
  destruct (torch_max probabilities) as [[confidence' predicted] | e]; [| discriminate].
  cbn [mbind outcome_bind].
  destruct (subscript _ predicted) as [predicted_class' | e]; [| discriminate].
  cbn [mbind outcome_bind]. intros [= <- <- <- <-].
  eexists _, _. reflexivity.
Qed.

End Prediction.

(** ** The verdict of a predicted class *)

Section PredictedVerdict.

Import Spec ExpertAnalyzer.

(** X3.  When [predict_damage] says major_damage on a row of non-negative
    probabilities whose sum is above 0.75, the confidence is the third
    probability and decides alone: above 0.8 (the float [float_0_8]) the
    car is banned, above 0.5 it must be repaired, otherwise its operation
    is restricted; the verdict conditional_taxi/cosmetic_repair is never
    reached. *)
Theorem major_damage_verdict_by_confidence
    (p0 p1 p2 confidence : Q) (probs : list Q) (names : list string) :
  0 <= p0 -> 0 <= p1 -> p0 + p1 + p2 > 0.75 ->
  predict_damage [p0; p1; p2]
  = Returned ("major_damage", confidence, probs, names) ->
  let v := verdict (determine_repairability "major_damage" confidence (p2 * 100)) in
  confidence = p2
  /\ (confidence > float_0_8 -> v = Returned ("taxi_banned", "safety_violation"))
  /\ (confidence <= float_0_8 -> confidence > 0.5 ->
      v = Returned ("repair_required", "mandatory_repair"))
  /\ (confidence <= 0.5 ->
      v = Returned ("conditional_taxi", "restricted_operation"))
  /\ v <> Returned ("conditional_taxi", "cosmetic_repair").
Proof.
  intros Hp0 Hp1 Hsum Hpredict.
  unfold predict_damage, torch_max in Hpredict. cbn [first_max] in Hpredict.
  repeat case_decide; cbn in Hpredict; simplify_eq.
  all: destruct (major_damage_branches confidence (confidence * 100))
         as (Hbanned & Hrepair & Hrestricted & _).
  all: split; [reflexivity |].
  all: assert (Hcases : confidence > float_0_8
                        \/ (confidence <= float_0_8 /\ confidence > 0.5)
                        \/ confidence <= 0.5) by lra.
  all: float_literals.
  all: repeat split; intros;
         try (apply Hbanned; lra); try (apply Hrepair; lra);
         try (apply Hrestricted; lra).
  all: destruct Hcases as [Hcase | [Hcase | Hcase]];
         [ rewrite Hbanned by lra | rewrite Hrepair by lra
         | rewrite Hrestricted by lra ]; discriminate.
Qed.

Lemma major_damage_verdict_by_confidence_witness :
  0 <= 0.05 /\ 0 <= 0.1 /\ 0.05 + 0.1 + 0.85 > 0.75
  /\ predict_damage [0.05; 0.1; 0.85]
     = Returned ("major_damage", 0.85, [0.05; 0.1; 0.85], class_names)
  /\ verdict (determine_repairability "major_damage" 0.85 (0.85 * 100))
     = Returned ("taxi_banned", "safety_violation").
Proof.
  assert (H0 : 0 <= 0.05) by lra.
  assert (H1 : 0 <= 0.1) by lra.
  assert (Hsum : 0.05 + 0.1 + 0.85 > 0.75) by lra.
  assert (Hpredict : predict_damage [0.05; 0.1; 0.85]
                     = Returned ("major_damage", 0.85, [0.05; 0.1; 0.85], class_names))
    by reflexivity.
  repeat (split; [assumption |]).
  apply (major_damage_verdict_by_confidence 0.05 0.1 0.85 0.85
           [0.05; 0.1; 0.85] class_names H0 H1 Hsum Hpredict).
  float_literals. lra.
Defined.

(** X4.  When [predict_damage] says minor_damage on a row with a
    non-negative first probability and a sum below 1.2, the test
    [minor_damage_prob > 40] of the decision always holds: the verdict is
    decided by the confidence alone, image_improvement above 0.6 (the
    float [float_0_6]) and minor_maintenance otherwise. *)
Theorem minor_damage_verdict_by_confidence
    (p0 p1 p2 confidence : Q) (probs : list Q) (names : list string) :
  0 <= p0 -> p0 + p1 + p2 < 1.2 ->
  predict_damage [p0; p1; p2]
  = Returned ("minor_damage", confidence, probs, names) ->
  let v := verdict (determine_repairability "minor_damage" confidence (p2 * 100)) in
  confidence = p1
  /\ 100 - p2 * 100 > 40.0
  /\ (confidence > float_0_6 -> v = Returned ("conditional_taxi", "image_improvement"))
  /\ (confidence <= float_0_6 -> v = Returned ("taxi_ready", "minor_maintenance")).
Proof.
  intros Hp0 Hsum Hpredict.
  unfold predict_damage, torch_max in Hpredict. cbn [first_max] in Hpredict.
  repeat case_decide; cbn in Hpredict; simplify_eq.
  all: destruct (minor_damage_branches confidence (p2 * 100)) as (Himage & Hready).
  all: float_literals.
  all: split; [reflexivity |]. all: split; [lra |].
  all: split; intros; [apply Himage | apply Hready]; lra.
Qed.

Lemma minor_damage_verdict_by_confidence_witness :
  0 <= 0.2 /\ 0.2 + 0.7 + 0.1 < 1.2
  /\ predict_damage [0.2; 0.7; 0.1]
     = Returned ("minor_damage", 0.7, [0.2; 0.7; 0.1], class_names)
  /\ verdict (determine_repairability "minor_damage" 0.7 (0.1 * 100))
     = Returned ("conditional_taxi", "image_improvement").
Proof.
  assert (H0 : 0 <= 0.2) by lra.
  assert (Hsum : 0.2 + 0.7 + 0.1 < 1.2) by lra.
  assert (Hpredict : predict_damage [0.2; 0.7; 0.1]
                     = Returned ("minor_damage", 0.7, [0.2; 0.7; 0.1], class_names))
    by reflexivity.
  repeat (split; [assumption |]).
  apply (minor_damage_verdict_by_confidence 0.2 0.7 0.1 0.7
           [0.2; 0.7; 0.1] class_names H0 Hsum Hpredict).
  float_literals. lra.
Defined.

(** X5.  For major_damage the verdict never gets milder when the
    confidence and the probability of major damage grow. *)
Theorem major_damage_severity_monotone (confidence confidence' P_major P_major' : Q) :
  confidence <= confidence' ->
  P_major <= P_major' ->
  exists v v',
    verdict (determine_repairability "major_damage" confidence P_major)
    = Returned v
    /\ verdict (determine_repairability "major_damage" confidence' P_major')
       = Returned v'
    /\ (severity v <= severity v')%nat.
Proof.
  intros Hconfidence Hprobability.
  unfold determine_repairability. cbv zeta.
  case_decide; [| done].
  repeat case_decide;
    (eexists _, _; split; [reflexivity |]; split; [reflexivity |]);
    first [ vm_compute; lia | exfalso; float_literals; lra ].
Qed.

Lemma major_damage_severity_monotone_witness :
  0.5 <= 0.85 /\ 30.0 <= 80.0
  /\ exists v v',
       verdict (determine_repairability "major_damage" 0.5 30.0) = Returned v
       /\ verdict (determine_repairability "major_damage" 0.85 80.0) = Returned v'
       /\ (severity v <= severity v')%nat.
Proof.
  assert (Hc : 0.5 <= 0.85) by lra.
  assert (Hp : 30.0 <= 80.0) by lra.
  split; [exact Hc |]. split; [exact Hp |].
  apply (major_damage_severity_monotone 0.5 0.85 30.0 80.0 Hc Hp).
Defined.

(** X6.  For minor_damage the verdict never gets milder when the
    confidence grows, and never gets worse when the probability of major
    damage grows: with a confidence above 0.6 (the float [float_0_6]), a
    probability of major damage of 60 percent or more gives
    taxi_ready/minor_maintenance and a smaller one
    conditional_taxi/image_improvement. *)
Theorem minor_damage_severity_antitone (confidence confidence' P_major P_major' : Q) :
  confidence <= confidence' ->
  P_major <= P_major' ->
  exists v v',
    verdict (determine_repairability "minor_damage" confidence P_major')
    = Returned v
    /\ verdict (determine_repairability "minor_damage" confidence' P_major)
       = Returned v'
    /\ (severity v <= severity v')%nat
    /\ (confidence' > float_0_6 ->
        (P_major >= 60 -> v' = ("taxi_ready", "minor_maintenance"))
        /\ (P_major < 60 -> v' = ("conditional_taxi", "image_improvement"))).
Proof.
  intros Hconfidence Hprobability.
  unfold determine_repairability. cbv zeta.
  case_decide; [done |]. case_decide; [| done].
  repeat case_decide;
    (eexists _, _; split; [reflexivity |]; split; [reflexivity |]);
    (split; [first [ vm_compute; lia | exfalso; float_literals; lra ] |]);
    intros; split; intros; first [reflexivity | exfalso; float_literals; lra].
Qed.

Lemma minor_damage_severity_antitone_witness :
  0.7 <= 0.7 /\ 55.0 <= 65.0
  /\ verdict (determine_repairability "minor_damage" 0.7 65.0)
     = Returned ("taxi_ready", "minor_maintenance")
  /\ verdict (determine_repairability "minor_damage" 0.7 55.0)
     = Returned ("conditional_taxi", "image_improvement").
Proof.
  assert (Hc : 0.7 <= 0.7) by lra.
  assert (Hp : 55.0 <= 65.0) by lra.
  split; [exact Hc |]. split; [exact Hp |].
  destruct (minor_damage_severity_antitone 0.7 0.7 55.0 65.0 Hc Hp)
    as (v & v' & Hv & Hv' & _).
  split; [rewrite Hv | rewrite Hv']; vm_compute in Hv, Hv'; congruence.
Defined.

(** The rationale of repair_required names the threshold of 50 percent
    also when the confidence alone selects the branch. *)
Example repair_required_below_its_threshold :
  exists lines,
    determine_repairability "major_damage" 0.65 40.0
    = Returned ("repair_required", lines, "mandatory_repair")
    /\ "   ⚖️ Превышен порог допуска к перевозкам (50.0%)" ∈ lines.
Proof. eexists. split; [reflexivity |]. compute_done. Qed.

(** X18.  On a prediction of [predict_damage] (non-negative probabilities
    with a sum above 0.75) the threshold that the rationale of a
    major_damage verdict names is really passed: a banned car has more
    than 75 percent, a car to be repaired more than 50, a restricted one
    more than 25 and at most 50.  On its other inputs the decision gives
    repair_required below 50 percent as well. *)
Theorem rationale_threshold_is_passed
    (p0 p1 p2 confidence : Q) (probs : list Q) (names : list string) :
  0 <= p0 -> 0 <= p1 -> p0 + p1 + p2 > 0.75 ->
  predict_damage [p0; p1; p2]
  = Returned ("major_damage", confidence, probs, names) ->
  let P_major := p2 * 100 in
  let v := verdict (determine_repairability "major_damage" confidence P_major) in
  (v = Returned ("taxi_banned", "safety_violation") -> P_major > 75.0)
  /\ (v = Returned ("repair_required", "mandatory_repair") -> P_major > 50.0)
  /\ (v = Returned ("conditional_taxi", "restricted_operation") ->
      25.0 < P_major <= 50.0).
Proof.
  intros Hp0 Hp1 Hsum Hpredict.
  unfold predict_damage, torch_max in Hpredict. cbn [first_max] in Hpredict.
  repeat case_decide; cbn in Hpredict; simplify_eq.
  all: cbv zeta.
  all: destruct (major_damage_branches confidence (confidence * 100))
         as (Hbanned & Hrepair & Hrestricted & Hcosmetic).
  all: cbv zeta in Hbanned, Hrepair, Hrestricted, Hcosmetic.
  all: destruct (decide (confidence > float_0_8)) as [H8 |];
         [ float_literals; rewrite Hbanned by lra
         | float_literals; destruct (decide (confidence > 0.5)) as [H5 |];
           [ rewrite Hrepair by lra | rewrite Hrestricted by lra ] ].
  all: repeat split; intros; first [discriminate | lra].
Qed.

Lemma rationale_threshold_is_passed_witness :
  0 <= 0.2 /\ 0 <= 0.2 /\ 0.2 + 0.2 + 0.6 > 0.75
  /\ predict_damage [0.2; 0.2; 0.6]
     = Returned ("major_damage", 0.6, [0.2; 0.2; 0.6], class_names)
  /\ verdict (determine_repairability "major_damage" 0.6 (0.6 * 100))
     = Returned ("repair_required", "mandatory_repair")
  /\ 0.6 * 100 > 50.0.
Proof.
  assert (H0 : 0 <= 0.2) by lra.
  assert (Hsum : 0.2 + 0.2 + 0.6 > 0.75) by lra.
  assert (Hpredict : predict_damage [0.2; 0.2; 0.6]
                     = Returned ("major_damage", 0.6, [0.2; 0.2; 0.6], class_names))
    by reflexivity.
  assert (Hverdict : verdict (determine_repairability "major_damage" 0.6 (0.6 * 100))
                     = Returned ("repair_required", "mandatory_repair"))
    by reflexivity.
  repeat (split; [assumption |]).
  destruct (rationale_threshold_is_passed 0.2 0.2 0.6 0.6
              [0.2; 0.2; 0.6] class_names H0 H0 Hsum Hpredict)
    as (_ & Hrepair & _).
  exact (Hrepair Hverdict).
Defined.

End PredictedVerdict.

(** ** Errors of the report and of the two pipelines *)

Section Pipeline.

Import Spec ExpertAnalyzer.

Lemma technical_lines_key_missing (dirt_metrics : gmap string Q) :
  ~ dirt_metrics_complete dirt_metrics ->
  technical_lines dirt_metrics = Raised KeyError.
Proof.
  unfold dirt_metrics_complete. rewrite !Forall_cons.
  unfold technical_lines, getitem. intros Hmissing.
  repeat match goal with
         | |- context [dirt_metrics !! ?key] =>
             destruct (dirt_metrics !! key) eqn:?; [| reflexivity]
         end.
  exfalso. apply Hmissing. repeat split; eauto.
Qed.

(** X7.  [generate_expert_assessment] fails in two ways only: with
    [IndexError] exactly when fewer than three probabilities are given,
    and with [KeyError] exactly when there are three and the dict of
    metrics lacks one of the five keys it prints; in every other case it
    returns a report, whatever the class, the confidence, the label and
    the score. *)
Theorem generate_expert_assessment_outcomes
    (predicted_class : string) (confidence : Q) (probabilities : list Q)
    (names : list string)
    (dirt_status : string) (dirt_score : Q) (dirt_metrics : gmap string Q) :
  let result :=
    generate_expert_assessment predicted_class confidence probabilities
      names dirt_status dirt_score dirt_metrics in
  (result = Raised IndexError <-> (length probabilities < 3)%nat)
  /\ (result = Raised KeyError
      <-> (3 <= length probabilities)%nat /\ ~ dirt_metrics_complete dirt_metrics)
  /\ ((exists lines, result = Returned lines)
      <-> (3 <= length probabilities)%nat /\ dirt_metrics_complete dirt_metrics).
Proof.
  unfold generate_expert_assessment, generate_expert_assessment_body, subscript.
  destruct probabilities as [| p0 [| p1 [| p2 rest]]]; cbn [lookup list_lookup length].
  1-3: rewrite ?bind_returned; cbv beta zeta; cbn [mbind outcome_bind];
       repeat split; intros; try lia; try discriminate;
       try (destruct_and?; lia); try (destruct_and?; destruct H as [? ?]; discriminate).
  rewrite !bind_returned. cbv beta zeta.
  destruct (determine_repairability_returns predicted_class confidence (p2 * 100))
    as (status & msgs & economic_tag & -> & _).
  rewrite bind_returned. cbv beta iota.
  destruct (decide (dirt_metrics_complete dirt_metrics)) as [Hcomplete | Hmissing].
  - destruct (technical_lines_returns dirt_metrics Hcomplete) as (technical & -> & _).
    rewrite !bind_returned. cbn [assessment].
    repeat split; intros; try discriminate; try lia; try tauto; eauto.
  - rewrite (technical_lines_key_missing dirt_metrics Hmissing).
    cbn [mbind outcome_bind].
    repeat split; intros; try discriminate; try lia; try tauto.
    destruct H as [lines ?]. discriminate.
Qed.

Lemma generate_expert_assessment_returns
    (predicted_class : string) (confidence p0 p1 p2 : Q)
    (names : list string)
    (dirt_status : string) (dirt_score : Q) (dirt_metrics : gmap string Q) :
  dirt_metrics_complete dirt_metrics ->
  exists report,
    generate_expert_assessment predicted_class confidence [p0; p1; p2]
      names dirt_status dirt_score dirt_metrics = Returned report.
Proof.
  intros Hcomplete.
  destruct (generate_expert_assessment_body_returns predicted_class confidence
              p0 p1 p2 names dirt_status dirt_score dirt_metrics Hcomplete)
    as (status & msgs & economic_tag & technical & _ & _ & Hbody).
  unfold generate_expert_assessment. rewrite Hbody, bind_returned.
  eexists. reflexivity.
Qed.

(** X8.  On the three probabilities of the network the two pipelines run
    to their end: [predict_damage] finds a class, the dict of
    [analyze_dirt_level] has every key the report reads, and
    [analyze_image_expert] prints the whole report between its three
    heading lines and its fourteen closing lines; [analyze_image] prints its
    results too. *)
Theorem pipelines_return (m : ImageMetrics) (p0 p1 p2 : Q) :
  (exists predicted_class confidence report before after,
     predict_damage [p0; p1; p2]
     = Returned (predicted_class, confidence, [p0; p1; p2], class_names)
     /\ generate_expert_assessment predicted_class confidence [p0; p1; p2]
          class_names (analyze_dirt_level m).1.1.1 (analyze_dirt_level m).1.2
          (analyze_dirt_level m).2 = Returned report
     /\ analyze_image_expert m [p0; p1; p2] = Returned (before ++ report ++ after)
     /\ length before = 3%nat /\ length after = 14%nat)
  /\ (exists printed, AnalyzeCarImage.analyze_image m [p0; p1; p2] = Returned printed).
Proof.
  pose proof (analyze_dirt_level_metrics_complete m) as Hcomplete.
  split.
  - unfold analyze_image_expert.
    destruct (analyze_dirt_level m) as [[[dirt_status dirt_emoji] dirt_score] dirt_metrics].
    cbn [fst snd] in *.
    assert (Hpredict : exists predicted_class confidence,
               predict_damage [p0; p1; p2]
               = Returned (predicted_class, confidence, [p0; p1; p2], class_names)).
    { unfold predict_damage, torch_max. cbn [first_max].
      repeat case_decide; eexists _, _; reflexivity. }
    destruct Hpredict as (predicted_class & confidence & Hpredict).
    destruct (generate_expert_assessment_returns predicted_class confidence
                p0 p1 p2 class_names dirt_status dirt_score dirt_metrics Hcomplete)
      as (report & Hreport).
    exists predicted_class, confidence, report.
    rewrite Hpredict, bind_returned. cbv beta iota.
    rewrite Hreport, bind_returned. cbv beta zeta.
    rewrite append_each. cbn [zip zip_with class_names foldl].
    rewrite <- !app_assoc.
    eexists _, _. split; [reflexivity |]. split; [reflexivity |].
    split; [reflexivity |]. split; reflexivity.
  - unfold AnalyzeCarImage.analyze_image, AnalyzeCarImage.predict_damage, torch_max.
    destruct (AnalyzeCarImage.analyze_dirt_level m) as [[dirt_status dirt_emoji] dirt_details].
    cbn [first_max]. repeat case_decide; eexists; reflexivity.
Qed.

End Pipeline.

(** ** The values of the cleanliness score *)

Section ScoreValues.

Import Spec.

#[local] Ltac half_integer k :=
  exists k; split; [lia | reflexivity].

Lemma color_diversity_points_halves x :
  exists k : Z, (0 <= k <= 4)%Z /\ color_diversity_points x * 2 == inject_Z k.
Proof.
  unfold color_diversity_points.
  repeat case_decide; [half_integer 4%Z | half_integer 2%Z | half_integer 0%Z].
Qed.

Lemma contrast_points_halves x :
  exists k : Z, (0 <= k <= 4)%Z /\ contrast_points x * 2 == inject_Z k.
Proof.
  unfold contrast_points.
  repeat case_decide; [half_integer 4%Z | half_integer 2%Z | half_integer 0%Z].
Qed.

Lemma saturation_points_halves x :
  exists k : Z, (0 <= k <= 3)%Z /\ saturation_points x * 2 == inject_Z k.
Proof.
  unfold saturation_points.
  repeat case_decide; [half_integer 3%Z | half_integer 1%Z | half_integer 0%Z].
Qed.

Lemma brown_ratio_points_halves x :
  exists k : Z, (0 <= k <= 4)%Z /\ brown_ratio_points x * 2 == inject_Z k.
Proof.
  unfold brown_ratio_points.
  repeat case_decide; [half_integer 4%Z | half_integer 2%Z | half_integer 0%Z].
Qed.

Lemma edge_intensity_points_halves x :
  exists k : Z, (0 <= k <= 3)%Z /\ edge_intensity_points x * 2 == inject_Z k.
Proof.
  unfold edge_intensity_points.
  repeat case_decide; [half_integer 3%Z | half_integer 1%Z | half_integer 0%Z].
Qed.

Lemma brightness_points_halves x :
  exists k : Z, (0 <= k <= 2)%Z /\ brightness_points x * 2 == inject_Z k.
Proof.
  unfold brightness_points.
  repeat case_decide; [half_integer 2%Z | half_integer 1%Z | half_integer 0%Z].
Qed.

Lemma dirt_score_halves (m : ImageMetrics) :
  exists k : Z,
    (0 <= k <= 20)%Z /\ ExpertAnalyzer.dirt_score m * 2 == inject_Z k.
Proof.
  destruct (color_diversity_points_halves (color_diversity m)) as (k1 & H1 & E1).
  destruct (contrast_points_halves (contrast m)) as (k2 & H2 & E2).
  destruct (saturation_points_halves (saturation m)) as (k3 & H3 & E3).
  destruct (brown_ratio_points_halves (brown_ratio m)) as (k4 & H4 & E4).
  destruct (edge_intensity_points_halves (edge_intensity m)) as (k5 & H5 & E5).
  destruct (brightness_points_halves (brightness m)) as (k6 & H6 & E6).
  exists (k1 + k2 + k3 + k4 + k5 + k6)%Z. split; [lia |].
  rewrite dirt_score_is_sum. unfold six_contributions.
  rewrite !inject_Z_plus. lra.
Qed.

(** The one-decimal print of a half-integer is the half-integer. *)
Lemma format_1f_of_halves (k : Z) :
  (0 <= k <= 20)%Z ->
  exists whole tenth : Z,
    format_1f (k # 2) = digits whole +:+ "." +:+ digits tenth
    /\ (0 <= tenth <= 9)%Z
    /\ k # 2 == inject_Z whole + inject_Z tenth / 10.
Proof.
  intros Hk.
  assert (Hcases : Exists (eq k) (seqZ 0 21)).
  { apply Exists_exists. exists k. split; [| reflexivity].
    apply elem_of_seqZ. lia. }
  cbv in Hcases.
  repeat (apply Exists_cons in Hcases as [Hvalue | Hcases];
          [exists (k / 2)%Z, (5 * (k mod 2))%Z; rewrite Hvalue;
           split; [reflexivity |];
           split; [split; vm_compute; discriminate | vm_compute; reflexivity] |]).
  apply Exists_nil in Hcases. contradiction.
Qed.

(** X9.  The dirt score of every image is one of the 21 half-integers from
    0 to 10, so the index that both files print with one decimal is the
    score itself, without rounding; and a score above 6 (above 4) is at
    least 6.5 (4.5). *)
Theorem dirt_score_half_integer (m : ImageMetrics) :
  let score := ExpertAnalyzer.dirt_score m in
  (exists k : Z, (0 <= k <= 20)%Z /\ score * 2 == inject_Z k)
  /\ (exists whole tenth : Z,
        format_1f score = digits whole +:+ "." +:+ digits tenth
        /\ (0 <= tenth <= 9)%Z
        /\ score == inject_Z whole + inject_Z tenth / 10)
  /\ (score > 6.0 <-> score >= 6.5)
  /\ (score > 4.0 <-> score >= 4.5).
Proof.
  cbv zeta.
  destruct (dirt_score_halves m) as (k & Hk & Hscore).
  assert (Hvalue : ExpertAnalyzer.dirt_score m == k # 2).
  { rewrite (Qmake_Qdiv k 2). unfold Qdiv.
    change (/ inject_Z (Z.pos 2)) with (1 # 2). lra. }
  split; [eauto |]. split.
  - destruct (format_1f_of_halves k Hk) as (whole & tenth & Hprint & Htenth & Hexact).
    exists whole, tenth.
    rewrite (format_1f_proper _ _ Hvalue), Hvalue. auto.
  - assert (Hinteger : forall n : Z, inject_Z k > inject_Z n -> inject_Z k >= inject_Z (n + 1)).
    { intros n Hn. rewrite <- Zlt_Qlt in Hn. rewrite <- Zle_Qle. lia. }
    pose proof (Hinteger 12%Z) as H12. pose proof (Hinteger 8%Z) as H8.
    change (inject_Z 12) with 12 in H12. change (inject_Z (12 + 1)) with 13 in H12.
    change (inject_Z 8) with 8 in H8. change (inject_Z (8 + 1)) with 9 in H8.
    split; split; intros; lra.
Qed.

End ScoreValues.

(** ** Label and advisory at the boundaries of the score *)

Section Boundaries.

Import Spec ExpertAnalyzer.

Example dirt_score_six : dirt_score (mkImageMetrics 50 20 150 0.2 30 180) == 6.
Proof. reflexivity. Qed.

Example dirt_score_four : dirt_score (mkImageMetrics 50 20 150 0.02 30 180) == 4.
Proof. reflexivity. Qed.

(** X10.  The report picks the narrative by the label, which is cut at
    [score >= 6] and [score >= 4], and the advisory by the score, which is
    cut at [score > 6.0] and [score > 4.0].  They agree except at the two
    boundaries, which images reach: at the score 6 the car is very_dirty
    and gets the below-standard advisory instead of the critical one, at
    the score 4 it is dirty and gets no advisory. *)
Theorem label_and_advisory_boundaries (m : ImageMetrics) :
  let label := (analyze_dirt_level m).1.1.1 in
  let score := (analyze_dirt_level m).1.2 in
  (cleanliness_lines score = critical_cleanliness_block -> label = very_dirty)
  /\ (cleanliness_lines score = below_standard_cleanliness_block ->
      label = dirty \/ label = very_dirty)
  /\ (label = very_dirty /\ cleanliness_lines score <> critical_cleanliness_block
      <-> score == 6)
  /\ (label = very_dirty /\ score == 6 ->
      cleanliness_lines score = below_standard_cleanliness_block)
  /\ (label = dirty /\ cleanliness_lines score = [] <-> score == 4)
  /\ (exists m6, (analyze_dirt_level m6).1.2 == 6)
  /\ (exists m4, (analyze_dirt_level m4).1.2 == 4).
Proof.
  cbv zeta. unfold analyze_dirt_level.
  destruct (ExpertAnalyzer.dirt_status (dirt_score m)) as [status emoji] eqn:Hstatus.
  cbn [fst snd].
  assert (Hlabel : status = (ExpertAnalyzer.dirt_status (dirt_score m)).1)
    by (rewrite Hstatus; reflexivity).
  clear Hstatus. subst status. generalize (dirt_score m) as score. intros score.
  split; [| split; [| split; [| split; [| split; [| split]]]]].
  7: { exists (mkImageMetrics 50 20 150 0.02 30 180).
       destruct (ExpertAnalyzer.dirt_status _); reflexivity. }
  6: { exists (mkImageMetrics 50 20 150 0.2 30 180).
       destruct (ExpertAnalyzer.dirt_status _); reflexivity. }
  all: unfold ExpertAnalyzer.dirt_status, cleanliness_lines,
         very_dirty, dirty.
  all: repeat case_decide; cbn [fst];
         repeat split; intros; destruct_and?;
         first [ reflexivity | discriminate | lra | tauto
               | (left; reflexivity) | (right; reflexivity) | idtac ].
  all: try (exfalso; congruence).
Qed.

(** X11.  The conclusion of the report is picked by the verdict: the seven
    verdicts that the decision returns select seven different
    conclusions; a status outside the four names is concluded like
    taxi_banned. *)
Theorem conclusion_per_verdict :
  (forall v v' : string * string,
     v ∈ verdicts -> v' ∈ verdicts ->
     conclusion_lines v.1 v.2 = conclusion_lines v'.1 v'.2 -> v = v')
  /\ (forall status economic_tag : string,
        status ∉ ["taxi_ready"; "conditional_taxi"; "repair_required"] ->
        conclusion_lines status economic_tag
        = conclusion_lines "taxi_banned" "safety_violation").
Proof.
  split.
  - intros v v' Hv Hv' Heq.
    apply (f_equal (fun lines => lines !! 3%nat)) in Heq.
    unfold verdicts in Hv, Hv'.
    repeat (apply elem_of_cons in Hv as [-> | Hv]); [.. | by apply elem_of_nil in Hv];
      repeat (apply elem_of_cons in Hv' as [-> | Hv']);
      try (by apply elem_of_nil in Hv'); try reflexivity;
      vm_compute in Heq; discriminate.
  - intros status economic_tag Hstatus.
    rewrite !not_elem_of_cons in Hstatus. destruct Hstatus as (H1 & H2 & H3 & _).
    unfold conclusion_lines. f_equal.
    repeat case_decide; first [congruence | reflexivity].
Qed.

(** X12.  The technical part of the report reads five keys of the dict of
    metrics and nothing else: two dicts that agree on these five keys give
    the same lines, or the same [KeyError].  The brown ratio and the score
    that [analyze_dirt_level] stores are not printed. *)
Theorem technical_lines_reads_five_keys (dirt_metrics dirt_metrics' : gmap string Q) :
  Forall (fun key => dirt_metrics !! key = dirt_metrics' !! key)
    ["color_diversity"; "contrast"; "saturation"; "edge_intensity"; "brightness"] ->
  technical_lines dirt_metrics = technical_lines dirt_metrics'.
Proof.
  rewrite !Forall_cons. intros (H1 & H2 & H3 & H4 & H5 & _).
  unfold technical_lines, getitem.
  rewrite H1, H2, H3, H4, H5. reflexivity.
Qed.

Lemma technical_lines_reads_five_keys_witness :
  Forall (fun key =>
            (analyze_dirt_level muddy).2 !! key
            = delete "brown_ratio" (delete "dirt_score" (analyze_dirt_level muddy).2) !! key)
    ["color_diversity"; "contrast"; "saturation"; "edge_intensity"; "brightness"]
  /\ technical_lines (analyze_dirt_level muddy).2
     = technical_lines
         (delete "brown_ratio" (delete "dirt_score" (analyze_dirt_level muddy).2)).
Proof.
  assert (Hkeys :
    Forall (fun key =>
              (analyze_dirt_level muddy).2 !! key
              = delete "brown_ratio" (delete "dirt_score" (analyze_dirt_level muddy).2) !! key)
      ["color_diversity"; "contrast"; "saturation"; "edge_intensity"; "brightness"]).
  { repeat constructor; rewrite !lookup_delete_ne by discriminate; reflexivity. }
  split; [exact Hkeys |].
  apply (technical_lines_reads_five_keys _ _ Hkeys).
Defined.

End Boundaries.

(** ** The bar of a probability *)

Section Bars.

Lemma py_len_app (a b : string) : py_len (a +:+ b) = (py_len a + py_len b)%nat.
Proof.
  induction a as [| c a IH]; [reflexivity |].
  change (String c a +:+ b) with (String c (a +:+ b)).
  cbn [py_len]. rewrite IH. lia.
Qed.

Lemma py_len_str_mul (s : string) (n : nat) :
  py_len (str_mul s n) = (n * py_len s)%nat.
Proof.
  induction n as [| n IH]; [reflexivity |].
  cbn [str_mul]. rewrite py_len_app, IH. lia.
Qed.

(** [int(x)] is between 0 and 30 exactly when [x] is between -1 and 31. *)
Lemma int_of_range (x : Q) : (0 <= int_of x <= 30)%Z <-> -1 < x < 31.
Proof.
  destruct x as [n d]. unfold int_of, Qlt. cbn [Qnum Qden].
  pose proof (Z.quot_rem' n (Z.pos d)) as Hdiv.
  assert (Hrem : (0 <= n -> 0 <= Z.rem n (Z.pos d) < Z.pos d)%Z)
    by (intros; apply Z.rem_bound_pos; lia).
  assert (Hrem' : (n <= 0 -> - Z.pos d < Z.rem n (Z.pos d) <= 0)%Z).
  { intros Hn. pose proof (Z.rem_bound_pos (- n) (Z.pos d)) as Hbound.
    rewrite Z.rem_opp_l in Hbound by lia. lia. }
  nia.
Qed.

(** [int(x)] is the floor of a number that is not negative. *)
Lemma int_of_floor (x : Q) :
  0 <= x -> inject_Z (int_of x) <= x < inject_Z (int_of x) + 1.
Proof.
  destruct x as [n d]. unfold int_of, Qle, Qlt. cbn [Qnum Qden].
  intros Hn. rewrite Z.quot_div_nonneg by lia.
  cbn. pose proof (Z.div_mod n (Z.pos d)) as Hdiv.
  pose proof (Z.mod_pos_bound n (Z.pos d)) as Hmod. nia.
Qed.

(** The product of the bar is rounded: for this float32 probability the
    exact product is below 19 and its float32 is 19, so that 19 cells are
    filled and not 18. *)
Example probability_bar_rounds_up :
  is_float 24 (5312785 # 8388608)
  /\ (5312785 # 8388608) * 30 < 19
  /\ float32_mul (5312785 # 8388608) 30 == 19
  /\ ExpertAnalyzer.probability_bar (5312785 # 8388608)
     = str_mul "█" 19 +:+ str_mul "░" 11.
Proof.
  split; [| repeat split; vm_compute; reflexivity].
  exists 5312785%Z, (-23)%Z. split; [reflexivity |]. vm_compute. reflexivity.
Qed.

(** X13.  The bar of a probability has its 30 cells exactly when the
    float32 product of the probability by 30 is above -1 and below 31, as
    it is for every probability in [0,1]; there the number of filled cells
    is the integer part of this float32 product, which is within [2^-20]
    of the exact product.  Both files draw the same bar. *)
Theorem probability_bar_cells (prob : Q) :
  (py_len (ExpertAnalyzer.probability_bar prob) = 30%nat
   <-> -1 < float32_mul prob 30 < 31)
  /\ (0 <= prob <= 1 ->
      exists filled : nat,
        (filled <= 30)%nat
        /\ py_len (ExpertAnalyzer.probability_bar prob) = 30%nat
        /\ ExpertAnalyzer.probability_bar prob
           = str_mul "█" filled +:+ str_mul "░" (30 - filled)
        /\ inject_Z (Z.of_nat filled) <= float32_mul prob 30
           < inject_Z (Z.of_nat filled) + 1
        /\ Qabs (float32_mul prob 30 - prob * 30) <= 1 # 1048576)
  /\ AnalyzeCarImage.probability_bar prob = ExpertAnalyzer.probability_bar prob.
Proof.
  assert (Hcells : py_len (ExpertAnalyzer.probability_bar prob) = 30%nat
                   <-> -1 < float32_mul prob 30 < 31).
  { rewrite <- int_of_range.
    unfold ExpertAnalyzer.probability_bar, str_mul_int. cbv zeta.
    rewrite py_len_app, !py_len_str_mul.
    change (py_len "█") with 1%nat. change (py_len "░") with 1%nat. lia. }
  split; [exact Hcells |]. split; [| reflexivity].
  intros Hprob.
  destruct (float32_mul_30 prob Hprob) as [Hnonneg Herror].
  assert (Hrange : -1 < float32_mul prob 30 < 31).
  { revert Herror. generalize (float32_mul prob 30). intros product.
    apply Qabs_case; intros; lra. }
  pose proof (int_of_floor _ Hnonneg) as Hfloor.
  pose proof (proj2 (int_of_range _) Hrange) as Hint.
  exists (Z.to_nat (int_of (float32_mul prob 30))).
  split; [lia |]. split; [apply Hcells, Hrange |]. split; [| split].
  - unfold ExpertAnalyzer.probability_bar, str_mul_int. cbv zeta.
    do 2 f_equal. lia.
  - rewrite Z2Nat.id by lia. exact Hfloor.
  - exact Herror.
Qed.

End Bars.

(** ** What [analyze_image] prints *)

Section Printout.

Import AnalyzeCarImage.

(** The four parts chosen by the prediction and by the label are printed. *)
Lemma printed_parts
    (predicted_class : string) (confidence : Q) (probabilities : list Q)
    (names : list string) (dirt_status dirt_emoji : string)
    (human_comments : list string) (dirt_details : string) (line : string) :
  line ∈ comment_lines human_comments
  \/ line ∈ recommendation_lines predicted_class confidence
  \/ line ∈ cleanliness_lines dirt_status
  \/ line ∈ additional_check_lines confidence ->
  line ∈ analyze_image_results predicted_class confidence probabilities names
           dirt_status dirt_emoji human_comments dirt_details.
Proof.
  unfold analyze_image_results. cbv zeta. rewrite !elem_of_app. tauto.
Qed.

Lemma damage_comments_nonempty (predicted_class : string) (confidence : Q) :
  exists first rest, damage_comments predicted_class confidence = first :: rest.
Proof.
  unfold damage_comments. repeat case_decide; eexists _, _; reflexivity.
Qed.

(** The first comment is marked, the following ones are bulleted. *)
Lemma comment_lines_cons (first : string) (rest : list string) :
  comment_lines (first :: rest)
  = ("   🔍 " +:+ first) :: ((fun comment => "   • " +:+ comment) <$> rest).
Proof.
  unfold comment_lines. rewrite imap_cons. f_equal.
  rewrite <- imap_const. apply imap_ext. intros i comment _. reflexivity.
Qed.

(** The result of [predict_damage] on three probabilities. *)
Lemma predict_damage_returns (m : ImageMetrics) (p0 p1 p2 : Q) :
  exists predicted_class confidence,
    predict_damage m [p0; p1; p2]
    = Returned (predicted_class, confidence, [p0; p1; p2],
                ["no_damage"; "minor_damage"; "major_damage"],
                (analyze_dirt_level m).1.1, (analyze_dirt_level m).1.2,
                get_human_comment predicted_class confidence
                  (analyze_dirt_level m).1.1,
                (analyze_dirt_level m).2).
Proof.
  unfold predict_damage, torch_max.
  destruct (analyze_dirt_level m) as [[dirt_status dirt_emoji] dirt_details].
  cbn [first_max fst snd]. repeat case_decide; eexists _, _; reflexivity.
Qed.

Lemma analyze_image_prints (m : ImageMetrics) (p0 p1 p2 : Q) :
  exists predicted_class confidence,
    analyze_image m [p0; p1; p2]
    = Returned
        (analyze_image_results predicted_class confidence [p0; p1; p2]
           ["no_damage"; "minor_damage"; "major_damage"]
           (analyze_dirt_level m).1.1 (analyze_dirt_level m).1.2
           (get_human_comment predicted_class confidence
              (analyze_dirt_level m).1.1)
           (analyze_dirt_level m).2).
Proof.
  destruct (predict_damage_returns m p0 p1 p2)
    as (predicted_class & confidence & Hpredict).
  exists predicted_class, confidence.
  unfold analyze_image. rewrite Hpredict. reflexivity.
Qed.

(** X14.  [analyze_image] picks its cleanliness block by the label itself:
    the five labels select five different blocks, and for every image the
    whole block of its label is printed. *)
Theorem cleanliness_block_per_label (m : ImageMetrics) (p0 p1 p2 : Q) :
  (forall label label',
     label ∈ [very_dirty; dirty; slightly_dirty; fairly_clean; very_clean] ->
     label' ∈ [very_dirty; dirty; slightly_dirty; fairly_clean; very_clean] ->
     cleanliness_lines label = cleanliness_lines label' -> label = label')
  /\ (analyze_dirt_level m).1.1
     ∈ [very_dirty; dirty; slightly_dirty; fairly_clean; very_clean]
  /\ exists printed,
       analyze_image m [p0; p1; p2] = Returned printed
       /\ cleanliness_lines (analyze_dirt_level m).1.1 <> []
       /\ forall line,
            line ∈ cleanliness_lines (analyze_dirt_level m).1.1 ->
            line ∈ printed.
Proof.
  split; [| split].
  - intros label label' Hl Hl' Heq.
    apply (f_equal (fun lines => lines !! 0%nat)) in Heq.
    repeat (apply elem_of_cons in Hl as [-> | Hl]); [.. | by apply elem_of_nil in Hl];
      repeat (apply elem_of_cons in Hl' as [-> | Hl']);
      try (by apply elem_of_nil in Hl'); try reflexivity;
      vm_compute in Heq; discriminate.
  - unfold analyze_dirt_level, dirt_status.
    repeat case_decide; cbn [fst]; compute_done.
  - destruct (analyze_image_prints m p0 p1 p2)
      as (predicted_class & confidence & Hprinted).
    eexists. split; [exact Hprinted |]. split.
    + unfold analyze_dirt_level, dirt_status.
      repeat case_decide; cbn [fst]; discriminate.
    + intros line Hline. apply printed_parts. auto.
Qed.

(** X15.  For a car that is slightly_dirty (a score from 2 up to, not
    including, 4) [analyze_image] prints two pieces of advice that
    disagree: among the comments, those of the label dirty, which ask for
    a thorough wash, and in the cleanliness part the block of
    slightly_dirty, for which an ordinary wash is enough. *)
Theorem slightly_dirty_printout (m : ImageMetrics) (p0 p1 p2 : Q) :
  2 <= dirt_score m < 4 ->
  exists printed,
    analyze_image m [p0; p1; p2] = Returned printed
    /\ "   • Автомобиль нуждается в хорошей мойке" ∈ printed
    /\ "   • Грязь затрудняет точную оценку состояния" ∈ printed
    /\ "   🟨 ЛЕГКОЕ ЗАГРЯЗНЕНИЕ:" ∈ printed
    /\ "   • Обычная мойка справится с загрязнением" ∈ printed.
Proof.
  intros Hscore.
  destruct (analyze_image_prints m p0 p1 p2)
    as (predicted_class & confidence & Hprinted).
  assert (Hlabel : (analyze_dirt_level m).1.1 = slightly_dirty).
  { unfold analyze_dirt_level, dirt_status.
    repeat case_decide; first [reflexivity | lra]. }
  rewrite Hlabel in Hprinted.
  eexists. split; [exact Hprinted |].
  assert (Hcomments : forall comment,
             comment ∈ dirt_comments slightly_dirty ->
             ("   • " +:+ comment)
             ∈ comment_lines (get_human_comment predicted_class confidence slightly_dirty)).
  { intros comment Hcomment. unfold get_human_comment. cbv zeta.
    destruct (damage_comments_nonempty predicted_class confidence)
      as (first & rest & ->).
    change ([] ++ first :: rest) with (first :: rest).
    change ((first :: rest) ++ dirt_comments slightly_dirty)
      with (first :: (rest ++ dirt_comments slightly_dirty)).
    rewrite comment_lines_cons. apply list_elem_of_further.
    apply (list_elem_of_fmap_2 (fun comment => "   • " +:+ comment)).
    apply elem_of_app. right. exact Hcomment. }
  repeat split; apply printed_parts.
  - left. apply (Hcomments "Автомобиль нуждается в хорошей мойке"). compute_done.
  - left. apply (Hcomments "Грязь затрудняет точную оценку состояния"). compute_done.
  - right; right; left. compute_done.
  - right; right; left. compute_done.
Qed.

Lemma slightly_dirty_printout_witness :
  2 <= dirt_score (mkImageMetrics 150 50 150 0.2 30 180) < 4
  /\ exists printed,
       analyze_image (mkImageMetrics 150 50 150 0.2 30 180) [0.9; 0.06; 0.04]
       = Returned printed
       /\ "   • Автомобиль нуждается в хорошей мойке" ∈ printed
       /\ "   🟨 ЛЕГКОЕ ЗАГРЯЗНЕНИЕ:" ∈ printed.
Proof.
  assert (Hscore : 2 <= dirt_score (mkImageMetrics 150 50 150 0.2 30 180) < 4).
  { split; vm_compute; [discriminate | reflexivity]. }
  split; [exact Hscore |].
  destruct (slightly_dirty_printout (mkImageMetrics 150 50 150 0.2 30 180)
              0.9 0.06 0.04 Hscore)
    as (printed & Hprinted & Hwash & _ & Hlight & _).
  exists printed. auto.
Defined.

(** The two float32 numbers around 0.6: below, the status is low and the
    advice is printed; above, the status is the middle one and no advice
    is printed.  At the Python float 0.6 between them the status is low
    and no advice is printed. *)
Example confidence_around_0_6 :
  is_float 24 (10066329 # 16777216) /\ is_float 24 (10066330 # 16777216)
  /\ 10066329 # 16777216 < float_0_6 < 10066330 # 16777216
  /\ confidence_status (10066329 # 16777216) = "🔴 Низкая уверенность"
  /\ additional_check_lines (10066329 # 16777216) <> []
  /\ confidence_status (10066330 # 16777216) = "🟡 Средняя уверенность"
  /\ additional_check_lines (10066330 # 16777216) = []
  /\ confidence_status float_0_6 = "🔴 Низкая уверенность"
  /\ additional_check_lines float_0_6 = [].
Proof.
  split; [| split]; [| | repeat split; discriminate].
  - exists 10066329%Z, (-24)%Z. split; [reflexivity |]. vm_compute. reflexivity.
  - exists 10066330%Z, (-24)%Z. split; [reflexivity |]. vm_compute. reflexivity.
Qed.

(** X16.  The advice for a low confidence is printed exactly when the
    confidence is below the float 0.6, and the status is the low one
    exactly when it is not above the float 0.6: the two tests differ at
    the float 0.6 alone.  The confidence that [analyze_image] gets from
    [predict_damage] is a float32, and no float32 is the float 0.6: there
    the advice is printed exactly when the status is the low one, that is
    exactly when the confidence is below 0.6. *)
Theorem low_confidence_advice (confidence : Q) :
  (additional_check_lines confidence <> [] <-> confidence < float_0_6)
  /\ (confidence_status confidence = "🔴 Низкая уверенность"
      <-> confidence <= float_0_6)
  /\ (confidence_status confidence = "🔴 Низкая уверенность"
      /\ additional_check_lines confidence = []
      <-> confidence == float_0_6)
  /\ (is_float 24 confidence ->
      (confidence_status confidence = "🔴 Низкая уверенность"
       <-> additional_check_lines confidence <> [])
      /\ (additional_check_lines confidence <> [] <-> confidence < 0.6)).
Proof.
  assert (Hadvice : additional_check_lines confidence <> []
                    <-> confidence < float_0_6).
  { unfold additional_check_lines.
    case_decide; split; intros; first [discriminate | lra | congruence]. }
  assert (Hstatus : confidence_status confidence = "🔴 Низкая уверенность"
                    <-> confidence <= float_0_6).
  { unfold confidence_status.
    repeat case_decide; split; intros;
      first [reflexivity | discriminate | float_literals; lra]. }
  split; [exact Hadvice |]. split; [exact Hstatus |]. split.
  - rewrite Hstatus.
    assert (Hnone : additional_check_lines confidence = []
                    <-> ~ confidence < float_0_6).
    { unfold additional_check_lines.
      case_decide; split; intros; first [reflexivity | congruence | tauto]. }
    rewrite Hnone. split; intros; destruct_and?; [| split]; lra.
  - intros Hfloat. pose proof (float32_misses_float_0_6 confidence Hfloat) as Hmiss.
    rewrite Hstatus, Hadvice.
    assert (Hside : float_0_6 < 0.6) by reflexivity.
    split; split; intros; lra.
Qed.

End Printout.

(** ** The narrative of the report, label by label *)

Section Narratives.

Import ExpertAnalyzer.

(** X17.  [generate_expert_assessment] compares the label with [==]: for
    every score the five labels select five different narratives, and the
    label that [analyze_dirt_level] hands over is always one of the five,
    so the final [else] is taken by very_clean only. *)
Theorem narrative_per_label (m : ImageMetrics) (score : Q) :
  (forall label label',
     label ∈ [very_dirty; dirty; slightly_dirty; fairly_clean; very_clean] ->
     label' ∈ [very_dirty; dirty; slightly_dirty; fairly_clean; very_clean] ->
     dirt_lines label score = dirt_lines label' score -> label = label')
  /\ (analyze_dirt_level m).1.1.1
     ∈ [very_dirty; dirty; slightly_dirty; fairly_clean; very_clean].
Proof.
  split.
  - intros label label' Hl Hl' Heq.
    destruct (decide (label = label')) as [| Hne]; [assumption |].
    exfalso. exact (dirt_lines_distinguish_labels score label label' Hl Hl' Hne Heq).
  - unfold analyze_dirt_level.
    destruct (ExpertAnalyzer.dirt_status (dirt_score m)) as [status emoji] eqn:Hstatus.
    cbn [fst]. revert Hstatus. unfold ExpertAnalyzer.dirt_status.
    repeat case_decide; intros [= <- _]; compute_done.
Qed.

End Narratives.
